(* ===== verification/_CoqProject ===== *)
-Q . S2P
Prelude.v
Amount.v
Chain.v
TxBuilder.v
Offchain.v
PrepareWf.v
Withdrawal.v
RefLedger.v
Interleaving.v
