(* ===== verification/Prelude.v ===== *)
(** * Offchain withdrawals of tatum-js: a verification development

    The program.  src/src/offchain/bitcoin.ts and src/offchain/litecoin.ts
    send a withdrawal from a custodial ledger account to the Bitcoin or
    Litecoin network.  Each file has two functions, written the same way:
    - [prepare{Bitcoin,Litecoin}SignedOffchainTransaction] builds and signs a
      transaction from the inputs the ledger returned ([data]), the amount,
      the recipient and the credentials (a mnemonic, or a key table with a
      change address).  It drives bitcoinjs-lib's [TransactionBuilder]: every
      entry but the sentinel (vIn = '-1') becomes an input; the payment
      output and the change output (the sentinel's amount, to the mnemonic's
      first address or to the change address) are added; each input is
      signed with the key of its entry; the result is serialized.
    - [send{Bitcoin,Litecoin}OffchainTransaction] validates the request,
      defaults the fee, stores the withdrawal in the ledger, calls the first
      function, broadcasts, and cancels the stored withdrawal when building
      or broadcasting throws.
    Amounts go through one expression, [Number(new BigNumber(a)
    .multipliedBy(1e8).toFixed(8, ROUND_FLOOR))], and bitcoinjs-lib's
    [types.Satoshi] check.

    The files, in dependency order.
    - [Prelude] (this file): the exceptions the code can throw ([js_error]),
      the result monad on stdpp's [≫=], JavaScript truthiness, [foldlM] for
      loops whose body throws, shared lemmas, hint databases, the scope
      [offchain_scope] (notations [throw] and [orelse]).
    - [Amount]: [BigNumber] (the string constructor on the [isNumeric]
      grammar with the exponent range, [multipliedBy], [toFixed] with
      ROUND_FLOOR), [JsNumber] ([Number] of a decimal string as
      round-to-nearest-even binary64), [toBaseUnits] (the expression above)
      and [Satoshi].  The rounding is exact integer arithmetic: a decimal
      n/d is scaled by 2^s so that its quotient has 53 bits.
    - [Chain]: interfaces to what the code imports from outside src/:
      [Currency], the four [network]s, the class [ECPairLib] (WIF keys and
      address scripts, with the law that a decoded key carries the network
      it was decoded for) and the class [Wallet] (the HD-wallet helpers of
      ../wallet).  [ToyChain] gives executable instances for witnesses.
    - [TxBuilder]: bitcoinjs-lib v5's [TransactionBuilder] as a state
      machine: [addInput], [addOutput], [sign], [build] with the library's
      checks in its order; [step] and the invariant [wf];
      the txid codec ([getId], and the decoding [addInput] makes).
    - [Offchain]: [prepareSignedOffchainTransaction] on a currency, cut
      along the code's statements ([addInputs], [lastVin], [addOutputs],
      [input_key], [signInputs], [build]), and the two per-currency entry
      points.
    - [PrepareWf]: the three phases of [prepareSignedOffchainTransaction]
      as runs of the builder's [step], and the shape of every transaction
      it returns.
    - [Withdrawal]: the orchestrator in a monad [M] that threads the ledger
      state and records every ledger call with its answer; the class
      [Ledger] for the endpoints of ./common and [Validator] for
      class-validator; the contract [spec_run] of spec section 4.4.
    - [RefLedger]: a reference implementation of the ledger contract of
      spec section 6 (a [gmap] book of withdrawals under fresh
      identifiers, idempotent cancel), the orchestrator run against it,
      and [ledger_run], one request processed from start to end.
    - [Interleaving]: concurrent requests: each request a process whose
      [phase] is the [await] it has reached, [advance] its next step,
      [sys_step] the interleaving of any number of requests over one
      ledger, and [schedule] an executable interleaving.

    The theorems.
    - Building ([Offchain]): with the sentinel after the spendable entries,
      the transaction's inputs are the spendable entries in order, input j
      signed with the key of entry j, and the outputs are the payment and
      the change ([prepare_signs_inputs]); a sentinel before a spendable
      entry makes every call throw, because the loop signs by position in
      [data] ([prepare_sentinel_first_throws]); no sentinel, no credentials:
      an exception; mnemonic and key-table credentials with the same keys
      give the same result ([prepare_cross_mode]); the inputs of every
      returned transaction, read back as txids, are the spendable entries
      in order ([prepare_spends_entries], a round trip through the txid
      codec of [addInput] and [getId]).
    - Output ([PrepareWf]): whatever the inputs, a returned transaction has
      one signed input per non-sentinel entry, distinct previous outputs,
      keys of the network, and exactly two valid outputs
      ([prepare_output_wf]); in key-table mode an address missing from the
      table means an exception ([prepare_missing_key_throws]).
    - Orchestration ([Withdrawal]): every run refines [spec_run]
      ([send_refines_spec]); failures after the store cancel the stored id
      exactly once, and the caller sees the original error unless the
      cancellation throws; no call is repeated ([send_at_most_once]).
    - Composition ([RefLedger]): against the reference ledger the
      orchestrator is one function of the ledger state
      ([ref_send_refines]); over any sequence of requests no withdrawal is
      left pending ([ref_runs_settled]).  End to end: a well-formed request
      is built into the transaction of [prepare_signs_inputs], which is
      what the network receives, and the withdrawal is recorded as
      broadcast with the network's txid, or cancelled when the network
      refuses it ([ref_send_end_to_end]).
    - Concurrency ([Interleaving]): against the reference ledger, under
      every interleaving of requests at their [await]s, each pending
      withdrawal belongs to exactly one request ([sys_reach_inv]), none is
      left once all have finished ([quiescent_settled]), and every run is
      finite and, once no request can move, ends with every request
      finished and the ledger settled ([sys_runs_end_settled]).
    - Amounts ([Amount]): off by at most an eighth of a satoshi in
      general, exact below 2^26 satoshi, monotonic
      ([toBaseUnits_monotone]); an amount with at most eight decimals is
      accepted exactly when its satoshi value lies in [0, SATOSHI_MAX]
      ([toBaseUnits_accepts]); below one satoshi, only amounts under
      1e-16 are accepted, as 0 satoshi ([toBaseUnits_dust]).
    - The library's builder ([TxBuilder]) keeps the invariant [wf] along
      every run of [step]; [PrepareWf] uses it for [prepare_output_wf].
    Concrete runs, each marked as the evidence of a finding, show the
    sub-satoshi rejection, the rounding up, the spec's scenario txid, the
    input set with the sentinel alone, the cancellation error that
    replaces the original one, the empty key table and the input without
    address.

    Bounds.  Every loop of the code is structural on its list.  The only
    fuel is that of [run_phases], which runs one request alone: five steps
    are enough ([phases_equiv_send]) since a request has at most five
    [await]s on its way (the rank of [PStart]).  The
    binary64 model has no exponent bounds below: the code converts values
    of at least 1e-8, far above the subnormal range; above, values of 2^1024
    or more become Infinity.  Arithmetic is on Z, unbounded, as in
    bignumber.js.

    Not modelled.  The HD derivation, WIF decoding, ECDSA signatures and the
    serialization bytes are abstract (classes [Wallet], [ECPairLib],
    [TxHex]); the ledger endpoints are abstract ([Ledger]), with a
    reference implementation of their spec contract in [RefLedger], not
    of the service itself; bignumber.js
    strings outside the [isNumeric] grammar (leading '+', blanks, 0x/0b/0o
    prefixes, "Infinity") are read as NaN; [console.error] is logging.
    What remains abstract is code outside the repository: ../wallet (HD
    derivation), ../constants (the Litecoin network parameters), ../model
    (the class-validator decorators of the request) and ./common (the
    ledger's HTTP endpoints); the theorems hold for every instance of the
    classes that stand for them.

    Concurrent requests interleave at their [await]s on the ledger
    ([Interleaving]); the code between two such [await]s (validation, the
    build with its wallet helpers) touches no shared state and is one step.
    The ledger's own concurrency (two servers answering at once) is not
    modelled: its calls are atomic.

    The strings outside the [isNumeric] grammar go through bignumber.js's
    parseNumeric, library code that is not in the repository and whose
    behaviour the spec does not describe; reading them as NaN makes the
    code reject them, which is what every theorem about rejected amounts
    assumes.  Everything of src/ is modelled; what is left out above is
    code outside src/ or outside the repository. *)
From Stdlib Require Import ZArith Lia.
From stdpp Require Export base list strings decidable relations.

(** ** JavaScript exceptions

    Every [throw] the modelled code can reach, by the site that raises it.
    The TypeScript code has no error hierarchy: each constructor names the
    statement (of src/ or of a library it calls) whose exception it stands
    for. *)
Inductive js_error : Type :=
  (* bitcoinjs-lib TransactionBuilder *)
  | ErrCannotModify          (* 'No, this would invalidate signatures' *)
  | ErrHash256bit            (* typeforce(types.Hash256bit) on the txid buffer *)
  | ErrCoinbase              (* 'coinbase inputs not supported' *)
  | ErrDuplicateTxOut        (* 'Duplicate TxOut: <txid>:<vout>' *)
  | ErrUInt32                (* typeforce(types.UInt32) on the output index *)
  | ErrOutputScript          (* baddress.toOutputScript: invalid address *)
  | ErrSatoshi               (* typeforce(types.Satoshi) on the output value *)
  | ErrInconsistentNetwork   (* 'Inconsistent network' *)
  | ErrNoInputAtIndex        (* 'No input at index: <vin>' *)
  | ErrNeedsOutputs          (* 'Transaction needs outputs' *)
  | ErrAlreadySigned         (* 'Signature already exists' / 'Key pair cannot sign' *)
  | ErrNoInputs              (* 'Transaction has no inputs' *)
  | ErrNoOutputs             (* 'Transaction has no outputs' *)
  | ErrIncomplete            (* 'Transaction is not complete' *)
  | ErrInvalidWIF            (* ECPair.fromWIF: malformed key or wrong network *)
  (* src/offchain/{bitcoin,litecoin}.ts *)
  | ErrCredentials           (* 'Impossible to prepare transaction. ...' *)
  | ErrLastVinUndefined      (* TypeError: lastVin is undefined *)
  | ErrInputAddressUndefined (* TypeError: input.address is undefined *)
  | ErrKeyPairUndefined      (* TypeError: keyPair is undefined *)
  | ErrPrivateKeyUndefined   (* TypeError: privateKey is undefined *)
  (* collaborators *)
  | ErrValidation            (* validateOrReject rejects the body *)
  | ErrLedger (msg : string) (* a ledger endpoint rejects the request *).

#[export] Instance js_error_eq_dec : EqDecision js_error.
Proof. solve_decision. Defined.

(** ** The result of a computation that may throw *)
Inductive result (A : Type) : Type :=
  | Ok (a : A)
  | Throw (e : js_error).
Arguments Ok {A} a.
Arguments Throw {A} e.

#[export] Instance result_ret : MRet result := λ A a, Ok a.
#[export] Instance result_bind : MBind result :=
  λ A B k c, match c with Ok a => k a | Throw e => Throw e end.
#[export] Instance result_fmap : FMap result :=
  λ A B f c, match c with Ok a => Ok (f a) | Throw e => Throw e end.

(** [x as T] on a value that may be [undefined]: reading a field of it
    throws the given TypeError. *)
Definition defined {A} (e : js_error) (o : option A) : result A :=
  match o with Some a => Ok a | None => Throw e end.

Declare Scope offchain_scope.
Delimit Scope offchain_scope with offchain.
Notation "'throw' e" := (Throw e) (at level 10) : offchain_scope.
Notation "o 'orelse' e" := (defined e o) (at level 10) : offchain_scope.
Open Scope offchain_scope.

(** ** JavaScript truthiness of the optional fields the code tests *)
(** A string field is truthy when it is present and not empty; the
    truthy value is returned, for the branch that uses it. *)
Definition truthy_string (s : option string) : option string :=
  match s with Some t => if bool_decide (t = "") then None else Some t | None => None end.

(** Arrays and objects are truthy whatever their contents. *)
Definition truthy_object {A} (o : option A) : bool :=
  match o with Some _ => true | None => false end.

(** ** [forEach] / [for ... of] whose body may throw: the first exception
    aborts the loop and propagates. *)
Fixpoint foldlM {S A} (f : S → A → result S) (s : S) (l : list A) : result S :=
  match l with
  | [] => Ok s
  | x :: l' => s' ← f s x; foldlM f s' l'
  end.

(** ** Generic lemmas *)
Lemma bind_Ok {A B} (a : A) (k : A → result B) : (Ok a ≫= k) = k a.
Proof. reflexivity. Qed.

Lemma bind_Throw {A B} (e : js_error) (k : A → result B) : (Throw e ≫= k) = Throw e.
Proof. reflexivity. Qed.

Lemma bind_Ok_inv {A B} (c : result A) (k : A → result B) (b : B) :
  (c ≫= k) = Ok b → ∃ a, c = Ok a ∧ k a = Ok b.
Proof. destruct c; simpl; [eauto | discriminate]. Qed.

Lemma bind_Throw_inv {A B} (c : result A) (k : A → result B) (e : js_error) :
  (c ≫= k) = Throw e → c = Throw e ∨ ∃ a, c = Ok a ∧ k a = Throw e.
Proof. destruct c; simpl; [eauto | intros [= ->]; auto]. Qed.

Lemma defined_Ok {A} (e : js_error) (o : option A) (a : A) :
  defined e o = Ok a ↔ o = Some a.
Proof. destruct o; simpl; split; congruence. Qed.

Lemma foldlM_app {S A} (f : S → A → result S) s l1 l2 :
  foldlM f s (l1 ++ l2) = (s' ← foldlM f s l1; foldlM f s' l2).
Proof.
  revert s. induction l1 as [|x l1 IH]; intros s; simpl; [done|].
  destruct (f s x); simpl; [apply IH | done].
Qed.

(** An invariant of the loop body is an invariant of the loop. *)
Lemma foldlM_invariant {S A} (P : S → Prop) (f : S → A → result S) s l s' :
  (∀ s x s', x ∈ l → P s → f s x = Ok s' → P s') →
  P s → foldlM f s l = Ok s' → P s'.
Proof.
  revert s. induction l as [|x l IH]; intros s Hf Hs H; simpl in H.
  - by injection H as <-.
  - apply bind_Ok_inv in H as (s1 & H1 & H2).
    eapply IH; [|eapply Hf; [left|..]|]; eauto.
    intros; eapply Hf; [right|..]; eauto.
Qed.

(** A body that never fails on the elements of [l] gives a loop that
    never fails. *)
Lemma foldlM_total {S A} (P : S → Prop) (f : S → A → result S) s l :
  (∀ s x, x ∈ l → P s → ∃ s', f s x = Ok s' ∧ P s') →
  P s → ∃ s', foldlM f s l = Ok s' ∧ P s'.
Proof.
  revert s. induction l as [|x l IH]; intros s Hf Hs; simpl; [eauto|].
  destruct (Hf s x) as (s1 & -> & Hs1); [left|done|]. simpl.
  apply IH; [|done]. intros; apply Hf; [right|..]; done.
Qed.

Lemma forallb_Forall {A} (f : A → bool) (l : list A) :
  forallb f l = true ↔ Forall (λ x, f x = true) l.
Proof.
  induction l as [|x l IH]; simpl; [split; auto|].
  rewrite andb_true_iff, IH. split; [intros []; by constructor | by inversion 1].
Qed.

(** ** Termination of a step relation by a decreasing measure *)
Lemma measure_sn {A} (R : relation A) (P : A → Prop) (f : A → nat) :
  (∀ x y, P x → R x y → P y ∧ (f y < f x)%nat) → ∀ x, P x → sn R x.
Proof.
  intros Hdec.
  assert (Hn : ∀ n x, P x → (f x < n)%nat → sn R x).
  { induction n as [|n IH]; intros x Hp Hx; [lia|].
    constructor. intros y Hy. destruct (Hdec x y Hp Hy). apply IH; [done|lia]. }
  intros x Hp. apply (Hn (S (f x))); [done|lia].
Qed.

Create HintDb offchain discriminated.
Create Rewrite HintDb offchain_rw.
#[export] Hint Rewrite @bind_Ok @bind_Throw : offchain_rw.
#[export] Hint Resolve bind_Ok bind_Throw : offchain.

(** Split every [c ≫= k = Ok b] hypothesis into its two halves. *)
Ltac inv_bind :=
  repeat match goal with
  | H : (_ ≫= _) = Ok _ |- _ =>
      let a := fresh "a" in let Ha := fresh "Ha" in
      apply bind_Ok_inv in H as (a & Ha & H)
  | H : defined _ _ = Ok _ |- _ => apply defined_Ok in H
  | H : Ok _ = Ok _ |- _ => injection H as H
  end.
