(* ===== verification/Amount.v ===== *)
(** * Amount codec

    The expression that turns a decimal amount into an output value, written
    three times in each of src/src/offchain/bitcoin.ts (lines 67, 70, 72) and
    src/offchain/litecoin.ts (lines 50, 53, 55):

      Number(new BigNumber(a).multipliedBy(100000000)
                             .toFixed(8, BigNumber.ROUND_FLOOR))

    and the check [types.Satoshi] that bitcoinjs-lib's [addOutput] applies
    to the resulting JavaScript number.  [BigNumber] models the parts of
    bignumber.js that the expression uses, [JsNumber] models [Number] on a
    decimal string as IEEE-754 binary64 rounding, and [toBaseUnits] is the
    composition. *)
From Stdlib Require Import ZArith Lia Ascii String.
From S2P Require Import Prelude.
Local Open Scope Z_scope.

Module BigNumber.

(** A bignumber.js value: NaN, an infinity, or (-1)^neg * m * 10^e. *)
Inductive t : Type :=
  | NaN
  | Infinity (neg : bool)
  | Finite (neg : bool) (m : Z) (e : Z).

(** The default exponent range of bignumber.js ([RANGE = [-1e7, 1e7]]). *)
Definition MAX_EXP : Z := 10000000.
Definition MIN_EXP : Z := -10000000.

Definition digit (c : Ascii.ascii) : option Z :=
  let n := Z.of_nat (Ascii.nat_of_ascii c) in
  if (48 <=? n) && (n <=? 57) then Some (n - 48) else None.

Fixpoint span_digits (l : list Ascii.ascii) : list Z * list Ascii.ascii :=
  match l with
  | c :: r =>
      match digit c with
      | Some d => let '(ds, rest) := span_digits r in (d :: ds, rest)
      | None => ([], l)
      end
  | [] => ([], [])
  end.

Definition digits_value (ds : list Z) : Z := fold_left (λ acc d, 10 * acc + d) ds 0.

Fixpoint leading_zeros (ds : list Z) : nat :=
  match ds with 0 :: r => S (leading_zeros r) | _ => O end.

(** The optional exponent [(?:e[+-]?\d+)?$] (case-insensitive). *)
Definition parse_exponent (l : list Ascii.ascii) : option Z :=
  match l with
  | [] => Some 0
  | c :: r =>
      if bool_decide (c = "e"%char ∨ c = "E"%char) then
        let '(neg, r') := match r with
                          | "+"%char :: r' => (false, r')
                          | "-"%char :: r' => (true, r')
                          | _ => (false, r)
                          end in
        let '(ds, rest) := span_digits r' in
        if bool_decide (ds ≠ [] ∧ rest = []) then
          Some (if neg then - digits_value ds else digits_value ds)
        else None
      else None
  end.

(** The fast path of the constructor, the regular expression [isNumeric]:
    an optional minus sign, then digits with an optional dot followed by
    optional digits, or a dot followed by digits, then an optional
    exponent; the result is the sign, the integer digits, the fraction
    digits and the exponent. *)
Definition parse_numeric (s : string) : option (bool * list Z * list Z * Z) :=
  let l := String.list_ascii_of_string s in
  let '(neg, l) := match l with "-"%char :: r => (true, r) | _ => (false, l) end in
  let '(ip, l) := span_digits l in
  let '(fp, l) := match l with
                  | "."%char :: r => span_digits r
                  | _ => ([], l)
                  end in
  if bool_decide (ip = [] ∧ fp = []) then None
  else x ← parse_exponent l; Some (neg, ip, fp, x).

(** [new BigNumber(s)] for a string [s].  The exponent of the leading
    significant digit is checked against the range: above it the value
    overflows to an infinity, below it it underflows to a signed zero. *)
Definition of_string (s : string) : t :=
  match parse_numeric s with
  | None => NaN
  | Some (neg, ip, fp, x) =>
      let ds := ip ++ fp in
      let lz := leading_zeros ds in
      if bool_decide (lz = length ds) then Finite neg 0 0
      else
        let e := Z.of_nat (length ip) + x - Z.of_nat lz - 1 in
        if MAX_EXP <? e then Infinity neg
        else if e <? MIN_EXP then Finite neg 0 0
        else Finite neg (digits_value ds) (x - Z.of_nat (length fp))
  end.

(** [x.multipliedBy(10^p)] is exact. *)
Definition times_pow10 (x : t) (p : Z) : t :=
  match x with
  | Finite neg m e => Finite neg m (e + p)
  | _ => x
  end.

(** The decimal string printed by [toFixed(dp, ROUND_FLOOR)]. *)
Inductive fixed : Type :=
  | FNaN
  | FInfinity (neg : bool)
  | FDecimal (k : Z) (dp : Z)   (* the decimal k / 10^dp *).

Definition signed (neg : bool) (m : Z) : Z := if neg then - m else m.

(** floor((-1)^neg * m * 10^e) *)
Definition floor_pow10 (neg : bool) (m e : Z) : Z :=
  if 0 <=? e then signed neg m * 10 ^ e else signed neg m / 10 ^ (- e).

Definition toFixed_floor (x : t) (dp : Z) : fixed :=
  match x with
  | NaN => FNaN
  | Infinity neg => FInfinity neg
  | Finite neg m e => FDecimal (floor_pow10 neg m (e + dp)) dp
  end.

End BigNumber.

Module JsNumber.

(** A JavaScript number: NaN, an infinity, or the finite double m * 2^e. *)
Inductive t : Type :=
  | NaN
  | Infinity (neg : bool)
  | Finite (m : Z) (e : Z).

(** (n/d)/2^s as a fraction with integer numerator and denominator. *)
Definition shift_ratio (n d s : Z) : Z * Z :=
  if s <? 0 then (n * 2 ^ (- s), d) else (n, d * 2 ^ s).

(** n/d >= 2^b *)
Definition ge_pow2 (n d b : Z) : bool :=
  let '(num, den) := shift_ratio n d b in den <=? num.

(** floor(log2(n/d)) for n, d > 0 *)
Definition ilog2_ratio (n d : Z) : Z :=
  let b0 := Z.log2 n - Z.log2 d in
  if ge_pow2 n d b0 then b0 else b0 - 1.

(** num/den rounded to the nearest integer, ties to even. *)
Definition round_half_even (num den : Z) : Z :=
  let q := num / den in
  let r := num mod den in
  if (den <? 2 * r) || ((2 * r =? den) && Z.odd q) then q + 1 else q.

(** The double nearest to n/d (n, d > 0), as (m, s) with value m * 2^s:
    53 significant bits.  The values the code converts are at least 1e-8,
    far above the subnormal range, so no lower exponent bound is needed. *)
Definition round_pos (n d : Z) : Z * Z :=
  let s := ilog2_ratio n d - 52 in
  let '(num, den) := shift_ratio n d s in
  (round_half_even num den, s).

(** [Number(str)] for a decimal string of value n/d (d > 0). *)
Definition of_ratio (n d : Z) : t :=
  if n =? 0 then Finite 0 0
  else
    let '(m, s) := round_pos (Z.abs n) d in
    if 1024 <=? s + Z.log2 m then Infinity (n <? 0)
    else Finite (if n <? 0 then - m else m) s.

Definition of_fixed (f : BigNumber.fixed) : t :=
  match f with
  | BigNumber.FNaN => NaN
  | BigNumber.FInfinity neg => Infinity neg
  | BigNumber.FDecimal k dp => of_ratio k (10 ^ dp)
  end.

(** The integer a number denotes, when it denotes one. *)
Definition to_integer (x : t) : option Z :=
  match x with
  | Finite m e =>
      if 0 <=? e then Some (m * 2 ^ e)
      else if m mod 2 ^ (- e) =? 0 then Some (m / 2 ^ (- e)) else None
  | _ => None
  end.

End JsNumber.

(** [Number(new BigNumber(a).multipliedBy(100000000).toFixed(8, ROUND_FLOOR))] *)
Definition toBaseUnits (a : string) : JsNumber.t :=
  JsNumber.of_fixed
    (BigNumber.toFixed_floor (BigNumber.times_pow10 (BigNumber.of_string a) 8) 8).

(** bitcoinjs-lib [types.Satoshi]:
    [typeforce.UInt53(value) && value <= SATOSHI_MAX], SATOSHI_MAX = 21e14. *)
Definition SATOSHI_MAX : Z := 2100000000000000.
Definition MAX_INT53 : Z := 9007199254740991.

Definition Satoshi (x : JsNumber.t) : option Z :=
  match JsNumber.to_integer x with
  | Some v => if (0 <=? v) && (v <=? MAX_INT53) && (v <=? SATOSHI_MAX) then Some v else None
  | None => None
  end.

(** ** Rounding to binary64 *)
Module Rounding.
Import JsNumber.

Lemma pow2_pos (t : Z) : 0 <= t → 0 < 2 ^ t.
Proof. intros; apply Z.pow_pos_nonneg; lia. Qed.

Lemma shift_ratio_pos n d s :
  0 < n → 0 < d → 0 < (shift_ratio n d s).1 ∧ 0 < (shift_ratio n d s).2.
Proof.
  unfold shift_ratio; intros. destruct (Z.ltb_spec s 0); simpl;
    pose proof (pow2_pos (- s)); pose proof (pow2_pos s); nia.
Qed.

(** Shifting by [s] or by a larger [b] differ by the factor 2^(b-s). *)
Lemma shift_ratio_cross n d s b :
  s <= b →
  (shift_ratio n d s).1 * (shift_ratio n d b).2
  = (shift_ratio n d b).1 * (shift_ratio n d s).2 * 2 ^ (b - s).
Proof.
  unfold shift_ratio; intros Hsb.
  destruct (Z.ltb_spec s 0), (Z.ltb_spec b 0); simpl; try lia.
  - replace (- s) with (- b + (b - s)) by lia. rewrite Z.pow_add_r by lia. lia.
  - replace (b - s) with (b + - s) by lia. rewrite Z.pow_add_r by lia. lia.
  - replace b with (s + (b - s)) at 1 by lia. rewrite Z.pow_add_r by lia. lia.
Qed.

Lemma ilog2_ratio_spec n d :
  0 < n → 0 < d → ge_pow2 n d (ilog2_ratio n d) = true.
Proof.
  intros Hn Hd. unfold ilog2_ratio.
  destruct (ge_pow2 n d (Z.log2 n - Z.log2 d)) eqn:E; [done|].
  pose proof (Z.log2_spec n Hn) as [Hn1 _]. pose proof (Z.log2_spec d Hd) as [_ Hd2].
  pose proof (Z.log2_nonneg n). pose proof (Z.log2_nonneg d).
  rewrite <- Z.add_1_r in Hd2.
  unfold ge_pow2, shift_ratio.
  set (ln := Z.log2 n) in *. set (ld := Z.log2 d) in *.
  destruct (Z.ltb_spec (ln - ld - 1) 0); simpl; apply Z.leb_le.
  - replace (- (ln - ld - 1)) with (ld + 1 - ln) by lia.
    assert (2 ^ ln * 2 ^ (ld + 1 - ln) = 2 ^ (ld + 1)) as Hp.
    { rewrite <- Z.pow_add_r by lia. f_equal; lia. }
    pose proof (pow2_pos (ld + 1 - ln)). nia.
  - assert (2 ^ (ln - ld - 1) * 2 ^ (ld + 1) = 2 ^ ln) as Hp.
    { rewrite <- Z.pow_add_r by lia. f_equal; lia. }
    pose proof (pow2_pos (ln - ld - 1)). nia.
Qed.

Lemma round_half_even_spec num den :
  0 < den →
  2 * Z.abs (round_half_even num den * den - num) <= den ∧ num / den <= round_half_even num den.
Proof.
  intros Hd. unfold round_half_even.
  pose proof (Z.div_mod num den ltac:(lia)). pose proof (Z.mod_pos_bound num den Hd).
  destruct (Z.ltb_spec den (2 * (num mod den))); simpl; [lia|].
  destruct (Z.eqb_spec (2 * (num mod den)) den), (Z.odd (num / den)); simpl; lia.
Qed.

(** The rounded mantissa has its 53rd bit set. *)
Lemma round_pos_mantissa n d :
  0 < n → 0 < d → 2 ^ 52 <= (round_pos n d).1.
Proof.
  intros Hn Hd. unfold round_pos.
  set (b := ilog2_ratio n d).
  pose proof (ilog2_ratio_spec n d Hn Hd) as Hb. fold b in Hb.
  pose proof (shift_ratio_cross n d (b - 52) b ltac:(lia)) as Hx.
  replace (b - (b - 52)) with 52 in Hx by lia.
  pose proof (shift_ratio_pos n d (b - 52) Hn Hd).
  pose proof (shift_ratio_pos n d b Hn Hd).
  unfold ge_pow2 in Hb.
  destruct (shift_ratio n d b) as [nb db] eqn:Eb.
  destruct (shift_ratio n d (b - 52)) as [ns ds] eqn:Es; simpl in *.
  apply Z.leb_le in Hb.
  pose proof (round_half_even_spec ns ds ltac:(lia)) as [_ Hq].
  assert (2 ^ 52 * ds <= ns) by nia.
  assert (2 ^ 52 <= ns / ds) by (apply Z.div_le_lower_bound; lia).
  lia.
Qed.

(** The rounding error is at most half a unit in the last place. *)
Lemma round_pos_error n d :
  0 < d →
  2 * Z.abs ((round_pos n d).1 * (shift_ratio n d (round_pos n d).2).2
             - (shift_ratio n d (round_pos n d).2).1)
  <= (shift_ratio n d (round_pos n d).2).2.
Proof.
  intros Hd. unfold round_pos.
  destruct (shift_ratio n d (ilog2_ratio n d - 52)) as [num den] eqn:E; simpl.
  rewrite E; simpl. apply round_half_even_spec.
  unfold shift_ratio in E. destruct (Z.ltb_spec (ilog2_ratio n d - 52) 0);
    injection E as <- <-; [lia|].
  pose proof (pow2_pos (ilog2_ratio n d - 52)). nia.
Qed.

End Rounding.

Module AmountFacts.
Import JsNumber Rounding.

Lemma SATOSHI_MAX_lt : SATOSHI_MAX < 2 ^ 51.
Proof. unfold SATOSHI_MAX. reflexivity. Qed.

Lemma Satoshi_Some x v :
  Satoshi x = Some v → to_integer x = Some v ∧ 0 <= v <= SATOSHI_MAX.
Proof.
  unfold Satoshi. destruct (to_integer x); [|done].
  destruct (_ && _) eqn:Hb; intros; simplify_eq.
  rewrite !andb_true_iff, ?Z.leb_le, ?Z.ltb_lt in Hb. split; [done|lia].
Qed.

(** A value accepted by [types.Satoshi] after [Number] of the decimal k/d
    is either zero, or an integer v with v * 2^t a 53-bit mantissa and
    within half a unit 2^-t of k/d. *)
Lemma of_ratio_accepted k d v :
  0 < d → Satoshi (of_ratio k d) = Some v →
  (k = 0 ∧ v = 0) ∨
  ∃ t, 2 <= t ∧ 2 ^ 52 <= v * 2 ^ t ∧ 2 * 2 ^ t * Z.abs (v * d - k) <= d.
Proof.
  intros Hd [Hint Hv]%Satoshi_Some. unfold of_ratio in Hint.
  destruct (Z.eqb_spec k 0) as [->|Hk].
  { left. simpl in Hint. by injection Hint as <-. }
  right. pose proof (round_pos_mantissa (Z.abs k) d ltac:(lia) Hd) as Hm.
  pose proof (round_pos_error (Z.abs k) d Hd) as He.
  destruct (round_pos (Z.abs k) d) as [m s]; simpl in *.
  destruct (1024 <=? s + Z.log2 m); [done|].
  unfold to_integer in Hint. pose proof SATOSHI_MAX_lt.
  assert (k < 0 ∨ 0 < k) as [Hneg|Hpos] by lia.
  - (* a negative decimal gives a negative number: rejected *)
    replace (k <? 0) with true in Hint by (symmetry; apply Z.ltb_lt; lia).
    destruct (Z.leb_spec 0 s).
    + injection Hint as <-. pose proof (pow2_pos s). nia.
    + destruct (Z.eqb_spec ((- m) mod 2 ^ (- s)) 0) as [Hmod|]; [|done].
      injection Hint as <-. pose proof (pow2_pos (- s) ltac:(lia)).
      apply Z.div_exact in Hmod; lia.
  - replace (k <? 0) with false in Hint by (symmetry; apply Z.ltb_ge; lia).
    rewrite (Z.abs_eq k) in He by lia.
    destruct (Z.leb_spec 0 s).
    + (* a nonnegative exponent means at least 2^52: above SATOSHI_MAX *)
      injection Hint as <-. pose proof (pow2_pos s). nia.
    + destruct (Z.eqb_spec (m mod 2 ^ (- s)) 0) as [Hmod|]; [|done].
      injection Hint as <-. pose proof (pow2_pos (- s) ltac:(lia)) as Hw.
      apply Z.div_exact in Hmod; [|lia].
      unfold shift_ratio in He. replace (s <? 0) with true in He by (symmetry; apply Z.ltb_lt; lia).
      simpl in He. set (w := 2 ^ (- s)) in *. set (v := m / w) in *.
      exists (- s). fold w. split; [|split; [nia|]].
      * destruct (Z.leb_spec 2 (- s)) as [|Hs]; [done|].
        assert (w = 2) by (subst w; replace (- s) with 1 by lia; reflexivity). nia.
      * replace (m * d - k * w) with (w * (v * d - k)) in He by nia.
        rewrite Z.abs_mul, (Z.abs_eq w) in He by lia. lia.
Qed.

Lemma toBaseUnits_finite a neg m e :
  BigNumber.of_string a = BigNumber.Finite neg m e →
  toBaseUnits a = of_ratio (BigNumber.floor_pow10 neg m (e + 8 + 8)) (10 ^ 8).
Proof. unfold toBaseUnits. intros ->. reflexivity. Qed.

Lemma toBaseUnits_nonfinite a :
  (∀ neg m e, BigNumber.of_string a ≠ BigNumber.Finite neg m e) →
  Satoshi (toBaseUnits a) = None.
Proof.
  unfold toBaseUnits. intros H. destruct (BigNumber.of_string a); [done|done|].
  by destruct (H neg m e).
Qed.

Lemma digits_value_nonneg ds :
  Forall (λ d, 0 <= d) ds → 0 <= BigNumber.digits_value ds.
Proof.
  unfold BigNumber.digits_value. intros Hds.
  cut (∀ acc, 0 <= acc → 0 <= fold_left (λ acc d, 10 * acc + d) ds acc); [eauto with lia|].
  induction Hds as [|x ds Hx _ IH]; intros acc Hacc; simpl; [done|].
  apply IH; lia.
Qed.
(** [Number] of a decimal that is an integer N below 2^51 is N itself. *)
Lemma of_ratio_integer N d :
  0 < d → 0 <= N < 2 ^ 51 → to_integer (of_ratio (N * d) d) = Some N.
Proof.
  intros Hd HN. unfold of_ratio.
  destruct (Z.eqb_spec (N * d) 0) as [H0|H0].
  { assert (N = 0) as -> by nia. reflexivity. }
  assert (0 < N) by nia. rewrite (Z.abs_eq (N * d)) by nia.
  pose proof (round_pos_mantissa (N * d) d ltac:(nia) Hd) as Hm.
  pose proof (round_pos_error (N * d) d Hd) as He.
  destruct (round_pos (N * d) d) as [m s]; simpl in *.
  unfold shift_ratio in He. destruct (Z.ltb_spec s 0); simpl in He.
  - pose proof (pow2_pos (- s) ltac:(lia)) as Hw. set (w := 2 ^ (- s)) in *.
    assert (m = N * w) as ->.
    { replace (m * d - N * d * w) with (d * (m - N * w)) in He by ring.
      rewrite Z.abs_mul, (Z.abs_eq d) in He by lia. nia. }
    assert (s + Z.log2 (N * w) < 1024) as Hlog.
    { subst w. rewrite Z.log2_mul_pow2 by lia.
      enough (Z.log2 N < 51) by lia. apply Z.log2_lt_pow2; lia. }
    apply Z.leb_gt in Hlog. rewrite Hlog.
    replace (N * d <? 0) with false by (symmetry; apply Z.ltb_ge; nia).
    simpl. replace (s <? 0) with true by (symmetry; apply Z.ltb_lt; lia).
    destruct (Z.leb_spec 0 s); [lia|].
    rewrite Z.mod_mul, Z.div_mul by lia. reflexivity.
  - exfalso. pose proof (pow2_pos s ltac:(lia)). nia.
Qed.

(** An integer number of satoshi in range is accepted as itself. *)
Lemma Satoshi_of_integer N : 0 <= N <= SATOSHI_MAX → Satoshi (of_ratio (N * 10 ^ 8) (10 ^ 8)) = Some N.
Proof.
  intros HN. unfold Satoshi. rewrite of_ratio_integer by (pose proof SATOSHI_MAX_lt; lia).
  unfold MAX_INT53, SATOSHI_MAX in *.
  destruct (Z.leb_spec 0 N), (Z.leb_spec N 9007199254740991), (Z.leb_spec N 2100000000000000);
    simpl; try lia; reflexivity.
Qed.

(** The truncation of an amount with at most eight decimals is exact. *)
Lemma floor_pow10_exact neg m e :
  -8 <= e →
  BigNumber.floor_pow10 neg m (e + 8 + 8) = BigNumber.signed neg m * 10 ^ (e + 8) * 10 ^ 8.
Proof.
  intros He. unfold BigNumber.floor_pow10.
  replace (0 <=? e + 8 + 8) with true by (symmetry; apply Z.leb_le; lia).
  rewrite <- Z.mul_assoc, <- Z.pow_add_r by lia. reflexivity.
Qed.

(** A value accepted after [Number] of the decimal k/10^8 is within an
    eighth of a unit of it. *)
Lemma accepted_error k v :
  Satoshi (of_ratio k (10 ^ 8)) = Some v → 8 * Z.abs (v * 10 ^ 8 - k) <= 10 ^ 8.
Proof.
  intros Hv.
  destruct (of_ratio_accepted _ (10 ^ 8) _ ltac:(reflexivity) Hv) as [[-> ->] | (t & Ht & _ & Herr)];
    [simpl; lia|].
  assert (4 <= 2 ^ t) by (change 4 with (2 ^ 2); apply Z.pow_le_mono_r; lia).
  nia.
Qed.

(** The truncation of (-1)^neg * m * 10^e, computed on the same value
    written with a smaller exponent E. *)
Lemma floor_pow10_common neg m e E :
  E <= e →
  BigNumber.floor_pow10 neg m (e + 8 + 8)
  = BigNumber.floor_pow10 false (BigNumber.signed neg m * 10 ^ (e - E)) (E + 8 + 8).
Proof.
  intros HE. unfold BigNumber.floor_pow10 at 2. cbn [BigNumber.signed].
  unfold BigNumber.floor_pow10. set (x := BigNumber.signed neg m).
  destruct (Z.leb_spec 0 (E + 8 + 8)), (Z.leb_spec 0 (e + 8 + 8)); try lia.
  - rewrite <- Z.mul_assoc, <- Z.pow_add_r by lia. do 2 f_equal. lia.
  - replace (e - E) with ((e + 8 + 8) + - (E + 8 + 8)) by lia.
    rewrite (Z.pow_add_r 10 (e + 8 + 8)) by lia. rewrite Z.mul_assoc, Z.div_mul; [done|].
    apply Z.pow_nonzero; lia.
  - replace (- (E + 8 + 8)) with ((e - E) + - (e + 8 + 8)) by lia.
    rewrite (Z.pow_add_r 10 (e - E)) by lia. rewrite (Z.mul_comm (10 ^ (e - E))), Z.div_mul_cancel_r;
      [done|..]; apply Z.pow_nonzero; lia.
Qed.

Lemma floor_pow10_mono x1 x2 p :
  x1 <= x2 → BigNumber.floor_pow10 false x1 p <= BigNumber.floor_pow10 false x2 p.
Proof.
  intros Hx. unfold BigNumber.floor_pow10. cbn [BigNumber.signed].
  destruct (Z.leb_spec 0 p).
  - apply Z.mul_le_mono_nonneg_r; [apply Z.pow_nonneg|]; lia.
  - apply Z.div_le_mono; [apply Z.pow_pos_nonneg|]; lia.
Qed.
(** Below 2^26 satoshi the binary64 rounding of a decimal k/10^8 that
    [Satoshi] accepts is exact. *)
Lemma accepted_small_exact k v :
  Satoshi (of_ratio k (10 ^ 8)) = Some v → k < 2 ^ 26 * 10 ^ 8 → k = v * 10 ^ 8.
Proof.
  intros Hv Hsmall.
  destruct (of_ratio_accepted _ (10 ^ 8) _ ltac:(reflexivity) Hv) as [[-> ->] | (t & Ht & Hmant & Herr)];
    [lia|].
  assert (4 <= 2 ^ t) by (change 4 with (2 ^ 2); apply Z.pow_le_mono_r; lia).
  assert (v <= 2 ^ 26) by nia.
  assert (2 ^ 26 <= 2 ^ t).
  { destruct (Z.leb_spec 26 t); [apply Z.pow_le_mono_r; lia|].
    assert (2 ^ t <= 2 ^ 25) by (apply Z.pow_le_mono_r; lia). nia. }
  nia.
Qed.

End AmountFacts.

(** ** Properties of the amount codec *)
Module AmountSpec.
Import AmountFacts.

(** C8: whatever the amount, a value that [addOutput] accepts differs
    from the amount in satoshi, truncated by [toFixed(8, ROUND_FLOOR)],
    by at most an eighth of a satoshi; so the conversion may round to the
    nearest integer (up as well as down) but never moves by a whole
    satoshi. *)
Theorem toBaseUnits_error_bound a neg m e v :
  BigNumber.of_string a = BigNumber.Finite neg m e →
  Satoshi (toBaseUnits a) = Some v →
  8 * Z.abs (v * 10 ^ 8 - BigNumber.floor_pow10 neg m (e + 8 + 8)) <= 10 ^ 8.
Proof.
  intros Ha Hv. rewrite (toBaseUnits_finite _ _ _ _ Ha) in Hv. by apply accepted_error.
Qed.

Lemma toBaseUnits_error_bound_witness :
  BigNumber.of_string "19999999.999999999"
    = BigNumber.Finite false 19999999999999999 (-9) ∧
  Satoshi (toBaseUnits "19999999.999999999") = Some 2000000000000000 ∧
  8 * Z.abs (2000000000000000 * 10 ^ 8
             - BigNumber.floor_pow10 false 19999999999999999 (-9 + 8 + 8)) <= 10 ^ 8.
Proof.
  split; [reflexivity|]. split; [vm_compute; reflexivity|].
  exact (toBaseUnits_error_bound "19999999.999999999" false 19999999999999999 (-9)
           2000000000000000 eq_refl ltac:(vm_compute; reflexivity)).
Defined.

(** C9: below 2^26 satoshi (about 0.67 BTC) the conversion is exact:
    an accepted value is exactly the amount truncated to eight decimals,
    so an amount with a fraction of a satoshi is rejected, never
    rounded. *)
Theorem toBaseUnits_small_exact a neg m e v :
  BigNumber.of_string a = BigNumber.Finite neg m e →
  Satoshi (toBaseUnits a) = Some v →
  BigNumber.floor_pow10 neg m (e + 8 + 8) < 2 ^ 26 * 10 ^ 8 →
  BigNumber.floor_pow10 neg m (e + 8 + 8) = v * 10 ^ 8.
Proof.
  intros Ha Hv. rewrite (toBaseUnits_finite _ _ _ _ Ha) in Hv. by apply accepted_small_exact.
Qed.

Lemma toBaseUnits_small_exact_witness :
  BigNumber.of_string "0.4995" = BigNumber.Finite false 4995 (-4) ∧
  Satoshi (toBaseUnits "0.4995") = Some 49950000 ∧
  BigNumber.floor_pow10 false 4995 (-4 + 8 + 8) = 49950000 * 10 ^ 8.
Proof.
  split; [reflexivity|]. split; [vm_compute; reflexivity|].
  exact (toBaseUnits_small_exact "0.4995" false 4995 (-4) 49950000 eq_refl
           ltac:(vm_compute; reflexivity) ltac:(vm_compute; reflexivity)).
Defined.

(** C13: the conversion is monotonic, as spec section 8 requires: of two
    amounts, the smaller one (compared at the common exponent) never
    gets more satoshi than the larger one, when both are accepted. *)
Theorem toBaseUnits_monotone a b n1 m1 e1 n2 m2 e2 v1 v2 :
  BigNumber.of_string a = BigNumber.Finite n1 m1 e1 →
  BigNumber.of_string b = BigNumber.Finite n2 m2 e2 →
  BigNumber.signed n1 m1 * 10 ^ (e1 - Z.min e1 e2)
    <= BigNumber.signed n2 m2 * 10 ^ (e2 - Z.min e1 e2) →
  Satoshi (toBaseUnits a) = Some v1 → Satoshi (toBaseUnits b) = Some v2 → v1 <= v2.
Proof.
  intros Ha Hb Hle H1 H2.
  rewrite (toBaseUnits_finite _ _ _ _ Ha) in H1. rewrite (toBaseUnits_finite _ _ _ _ Hb) in H2.
  apply accepted_error in H1, H2.
  rewrite (floor_pow10_common n1 m1 e1 (Z.min e1 e2)) in H1 by lia.
  rewrite (floor_pow10_common n2 m2 e2 (Z.min e1 e2)) in H2 by lia.
  pose proof (floor_pow10_mono _ _ (Z.min e1 e2 + 8 + 8) Hle).
  change (10 ^ 8) with 100000000 in *. lia.
Qed.

Lemma toBaseUnits_monotone_witness :
  BigNumber.of_string "0.4995" = BigNumber.Finite false 4995 (-4) ∧
  BigNumber.of_string "1.5" = BigNumber.Finite false 15 (-1) ∧
  Satoshi (toBaseUnits "0.4995") = Some 49950000 ∧
  Satoshi (toBaseUnits "1.5") = Some 150000000 ∧ 49950000 <= 150000000.
Proof.
  split_and!; [reflexivity|reflexivity|vm_compute; reflexivity|vm_compute; reflexivity|].
  exact (toBaseUnits_monotone "0.4995" "1.5" false 4995 (-4) false 15 (-1) 49950000 150000000
           eq_refl eq_refl ltac:(vm_compute; congruence) ltac:(vm_compute; reflexivity)
           ltac:(vm_compute; reflexivity)).
Defined.

(** C20: the conversion at its bounds.  An amount with at most eight
    decimals is accepted exactly when its value in satoshi lies in
    [0, SATOSHI_MAX], and then as that value: negative amounts and amounts
    above 21 million BTC are rejected, the bounds themselves accepted. *)
Theorem toBaseUnits_accepts a neg m e :
  BigNumber.of_string a = BigNumber.Finite neg m e → -8 <= e →
  Satoshi (toBaseUnits a)
  = (let N := BigNumber.signed neg m * 10 ^ (e + 8) in
     if (0 <=? N) && (N <=? SATOSHI_MAX) then Some N else None).
Proof.
  intros Ha He. cbv zeta. rewrite (toBaseUnits_finite _ _ _ _ Ha), floor_pow10_exact by done.
  set (N := BigNumber.signed neg m * 10 ^ (e + 8)).
  destruct (Z.leb_spec 0 N), (Z.leb_spec N SATOSHI_MAX); simpl; [by apply Satoshi_of_integer|..];
    (destruct (Satoshi (JsNumber.of_ratio (N * 10 ^ 8) (10 ^ 8))) as [v|] eqn:Hv; [exfalso|done]);
    pose proof (accepted_error _ _ Hv); pose proof (Satoshi_Some _ _ Hv) as [_ Hr];
    change (10 ^ 8) with 100000000 in *; lia.
Qed.

Lemma toBaseUnits_accepts_witness :
  BigNumber.of_string "21000000" = BigNumber.Finite false 21000000 0 ∧
  Satoshi (toBaseUnits "21000000") = Some 2100000000000000 ∧
  BigNumber.of_string "21000000.00000001" = BigNumber.Finite false 2100000000000001 (-8) ∧
  Satoshi (toBaseUnits "21000000.00000001") = None.
Proof.
  split_and!; [reflexivity| |reflexivity|].
  - exact (toBaseUnits_accepts "21000000" false 21000000 0 eq_refl ltac:(lia)).
  - exact (toBaseUnits_accepts "21000000.00000001" false 2100000000000001 (-8) eq_refl ltac:(lia)).
Defined.

(** C22: amounts below one satoshi.  The floor to eight decimals is
    taken after the scaling by 10^8, on k = floor(amount * 10^16), and
    only then is the value checked to be an integer.  So a nonnegative
    amount below one satoshi (k < 10^8) is accepted exactly when k = 0,
    that is when it is below 10^-16 BTC, and then as 0 satoshi (dust
    becomes a zero-value output); every larger fraction of a satoshi,
    such as 0.000000001 BTC, is refused. *)
Theorem toBaseUnits_dust a m e :
  BigNumber.of_string a = BigNumber.Finite false m e → 0 <= m →
  BigNumber.floor_pow10 false m (e + 8 + 8) < 10 ^ 8 →
  Satoshi (toBaseUnits a)
  = if BigNumber.floor_pow10 false m (e + 8 + 8) =? 0 then Some 0 else None.
Proof.
  intros Ha Hm Hk. rewrite (toBaseUnits_finite _ _ _ _ Ha).
  set (k := BigNumber.floor_pow10 false m (e + 8 + 8)) in *.
  assert (0 <= k) by (subst k; unfold BigNumber.floor_pow10, BigNumber.signed;
    case_match; [apply Z.mul_nonneg_nonneg; [lia|apply Z.pow_nonneg; lia]|apply Z.div_pos; [lia|apply Z.pow_pos_nonneg; lia]]).
  destruct (Z.eqb_spec k 0) as [->|Hk0]; [reflexivity|].
  destruct (Satoshi (JsNumber.of_ratio k (10 ^ 8))) as [v|] eqn:Hv; [exfalso|done].
  apply accepted_small_exact in Hv; [|change (10 ^ 8) with 100000000 in *; lia].
  change (10 ^ 8) with 100000000 in *. lia.
Qed.

Lemma toBaseUnits_dust_witness :
  BigNumber.of_string "0.00000000000000001" = BigNumber.Finite false 1 (-17) ∧
  Satoshi (toBaseUnits "0.00000000000000001") = Some 0 ∧
  BigNumber.of_string "0.000000001" = BigNumber.Finite false 1 (-9) ∧
  Satoshi (toBaseUnits "0.000000001") = None.
Proof.
  split_and!; [reflexivity| |reflexivity|].
  - exact (toBaseUnits_dust "0.00000000000000001" 1 (-17) eq_refl ltac:(lia)
             ltac:(vm_compute; reflexivity)).
  - exact (toBaseUnits_dust "0.000000001" 1 (-9) eq_refl ltac:(lia) ltac:(vm_compute; reflexivity)).
Defined.

(** Finding, on a concrete run: the conversion does not floor to an integer number of satoshi as
    spec section 4.1 describes: an amount with a ninth decimal gives a
    JavaScript number with a fractional part, which [addOutput] rejects. *)
Example toBaseUnits_subsatoshi_rejected :
  toBaseUnits "0.123456785" = JsNumber.Finite 6628035675553792 (-29) ∧
  JsNumber.to_integer (toBaseUnits "0.123456785") = None ∧
  Satoshi (toBaseUnits "0.123456785") = None.
Proof. vm_compute. auto. Qed.

(** Finding, on a concrete run: for large amounts the conversion rounds up: 19999999.999999999 BTC,
    1999999999999999.9 satoshi, is accepted as 2000000000000000. *)
Example toBaseUnits_rounds_up :
  Satoshi (toBaseUnits "19999999.999999999") = Some 2000000000000000.
Proof. vm_compute. reflexivity. Qed.
End AmountSpec.
