(* ===== verification/Chain.v ===== *)
(** * Interfaces to the collaborators of the offchain module

    What src/src/offchain/bitcoin.ts and src/offchain/litecoin.ts import
    but do not define: the currency and network objects
    (bitcoinjs-lib [networks], ../constants [LTC_NETWORK]), the key and
    address functions of bitcoinjs-lib ([ECPair.fromWIF],
    [address.toOutputScript]) and the HD-wallet helpers of ../wallet.
    They are type classes: the theorems of the other files hold for every
    instance, and [Instances] gives small executable instances on which the
    witnesses run. *)
From Stdlib Require Import ZArith.
From stdpp Require Import pretty.
From S2P Require Import Prelude.

(** [Currency.BTC], [Currency.LTC] of ../model *)
Inductive Currency : Type := BTC | LTC.

#[export] Instance Currency_eq_dec : EqDecision Currency.
Proof. solve_decision. Defined.

(** The four network parameter objects the two files select from. *)
Inductive network : Type :=
  | bitcoin | testnet | LTC_NETWORK | TEST_LTC_NETWORK.

#[export] Instance network_eq_dec : EqDecision network.
Proof. solve_decision. Defined.

(** [testnet ? networks.testnet : networks.bitcoin] (bitcoin.ts line 57) *)
Definition btc_network (is_testnet : bool) : network :=
  if is_testnet then testnet else bitcoin.

(** [testnet ? TEST_LTC_NETWORK : LTC_NETWORK] (litecoin.ts line 40) *)
Definition ltc_network (is_testnet : bool) : network :=
  if is_testnet then TEST_LTC_NETWORK else LTC_NETWORK.

Definition network_of (c : Currency) : bool → network :=
  match c with BTC => btc_network | LTC => ltc_network end.

(** bitcoinjs-lib's key pairs and addresses.  A key pair remembers the
    network it was decoded for; [fromWIF] fails on a malformed key or on a
    key of another network. *)
Class ECPairLib : Type := {
  ECPair : Type;
  ecpair_network : ECPair → network;
  fromWIF : string → network → option ECPair;
  fromWIF_network w n k : fromWIF w n = Some k → ecpair_network k = n;
  (* baddress.toOutputScript succeeds *)
  isAddress : string → network → bool;
}.

(** The HD-wallet helpers of ../wallet, on a currency and a testnet flag:
    [generateBtcWallet]/[generateLtcWallet] give the extended public key of
    a mnemonic, [generateAddressFromXPub] the address at an index of an
    extended public key, [generatePrivateKeyFromMnemonic] the WIF private
    key at an index.  They are functions: the same mnemonic and index give
    the same key (spec section 4.2). *)
Class Wallet : Type := {
  generateWallet : Currency → bool → string → string;
  generateAddressFromXPub : Currency → bool → string → Z → string;
  generatePrivateKeyFromMnemonic : Currency → bool → string → Z → string;
}.

(** ** Small executable instances, for the witnesses: a key is its WIF
    string with its network; any non-empty string is an address; the
    wallet derives strings that name the mnemonic and the index. *)
Module ToyChain.
Definition toy_fromWIF (w : string) (n : network) : option (string * network) :=
  if bool_decide (w = "") then None else Some (w, n).

Lemma toy_fromWIF_network w n k : toy_fromWIF w n = Some k → k.2 = n.
Proof. unfold toy_fromWIF. case_bool_decide; intros; simplify_eq; done. Qed.

#[export] Instance toy_ecpair : ECPairLib := {|
  ECPair := string * network;
  ecpair_network k := k.2;
  fromWIF := toy_fromWIF;
  fromWIF_network := toy_fromWIF_network;
  isAddress a n := negb (bool_decide (a = ""));
|}.

#[export] Instance toy_wallet : Wallet := {|
  generateWallet c t m := ("xpub:" ++ m)%string;
  generateAddressFromXPub c t x i := (x ++ "/" ++ pretty i)%string;
  generatePrivateKeyFromMnemonic c t m i := ("wif:" ++ m ++ "/" ++ pretty i)%string;
|}.
End ToyChain.
