(* ===== verification/TxBuilder.v ===== *)
(** * The transaction builder

    A model of the bitcoinjs-lib (v5) [TransactionBuilder] that
    [prepareBitcoinSignedOffchainTransaction] and
    [prepareLitecoinSignedOffchainTransaction] drive: [new
    TransactionBuilder(network)], [addInput(txid, vout)],
    [addOutput(address, value)], [sign(vin, keyPair)] and [build()].  Each
    operation keeps the library's checks, in the library's order, and
    throws the library's exception when one fails.  Inputs are signed
    offline as pay-to-pubkey-hash: the first [sign] of an input fixes its
    key, a second one throws.  The builder is a state machine: [step] is
    one successful operation, and [wf] the invariant every run of them
    keeps from [new].  The txid codec,
    Node's hex decoding in [addInput] and bitcoinjs-lib's [getId], is
    modelled with the round trip from a txid to the hash [addInput]
    stores and back, which [Offchain] uses to read the inputs of a
    returned transaction back as the ledger's txids. *)
From Stdlib Require Import ZArith Lia Ascii String.
From stdpp Require Import relations.
From stdpp Require Import pretty.
From S2P Require Import Prelude Amount Chain.
Local Open Scope Z_scope.

(** Node's [Buffer.from(s, 'hex')]: the longest prefix of complete pairs
    of hex digits, decoded. *)
Definition unhex (c : ascii) : option Z :=
  let n := Z.of_nat (nat_of_ascii c) in
  if (48 <=? n) && (n <=? 57) then Some (n - 48)
  else if (97 <=? n) && (n <=? 102) then Some (n - 87)
  else if (65 <=? n) && (n <=? 70) then Some (n - 55)
  else None.

Fixpoint hex_decode (l : list ascii) : list Z :=
  match l with
  | a :: b :: r =>
      match unhex a, unhex b with
      | Some x, Some y => (16 * x + y) :: hex_decode r
      | _, _ => []
      end
  | _ => []
  end.

(** [reverseBuffer(Buffer.from(txHash, 'hex'))] in [addInput] *)
Definition txHash_of_string (s : string) : list Z :=
  rev (hex_decode (list_ascii_of_string s)).

(** Node's [buf.toString('hex')]: two lowercase hex digits per byte. *)
Definition hex_digit (d : Z) : ascii :=
  ascii_of_nat (Z.to_nat (if d <? 10 then 48 + d else 87 + d)).

Fixpoint hex_encode (bs : list Z) : list ascii :=
  match bs with
  | [] => []
  | b :: r => hex_digit (b / 16) :: hex_digit (b mod 16) :: hex_encode r
  end.

(** [Transaction.getId()]: [reverseBuffer(this.getHash()).toString('hex')],
    the txid the ledger reports for a transaction of hash [h]. *)
Definition getId (h : list Z) : string := string_of_list_ascii (hex_encode (rev h)).

(** A lowercase hex digit, as [toString('hex')] writes them. *)
Definition is_lower_hex (c : ascii) : bool :=
  let n := nat_of_ascii c in (((48 <=? n) && (n <=? 57)) || ((97 <=? n) && (n <=? 102)))%nat.

(** [Transaction.isCoinbaseHash] *)
Definition isCoinbaseHash (h : list Z) : bool := forallb (λ b, b =? 0) h.

(** typeforce [UInt32] *)
Definition UInt32 (v : Z) : bool := (0 <=? v) && (v <=? 4294967295).

Section Builder.
Context `{ECPairLib}.

Record TxInput : Type := {
  hash : list Z;             (* the previous transaction id, reversed *)
  index : Z;                 (* the previous output index *)
  signer : option ECPair;    (* the key of the signature, once signed *)
}.

Record TxOutput : Type := {
  script : string;           (* the address the output script pays to *)
  value : Z;                 (* satoshi *)
}.

Record TransactionBuilder : Type := {
  builder_network : network;
  ins : list TxInput;
  outs : list TxOutput;
}.

Record Transaction : Type := {
  tx_ins : list TxInput;
  tx_outs : list TxOutput;
}.

Definition new (n : network) : TransactionBuilder :=
  {| builder_network := n; ins := []; outs := [] |}.

Definition is_signed (i : TxInput) : bool := match signer i with Some _ => true | None => false end.

(** [__canModifyInputs] and [__canModifyOutputs]: with the default
    SIGHASH_ALL, no input may carry a signature yet. *)
Definition canModify (tb : TransactionBuilder) : bool :=
  forallb (λ i, negb (is_signed i)) (ins tb).

Definition set_ins (tb : TransactionBuilder) (l : list TxInput) : TransactionBuilder :=
  {| builder_network := builder_network tb; ins := l; outs := outs tb |}.

Definition set_outs (tb : TransactionBuilder) (l : list TxOutput) : TransactionBuilder :=
  {| builder_network := builder_network tb; ins := ins tb; outs := l |}.

(** [addInput] and [__addInputUnsafe] *)
Definition addInput (tb : TransactionBuilder) (txHash : string) (vout : Z)
    : result TransactionBuilder :=
  if negb (canModify tb) then throw ErrCannotModify else
  let h := txHash_of_string txHash in
  if negb (bool_decide (length h = 32%nat)) then throw ErrHash256bit else
  if isCoinbaseHash h then throw ErrCoinbase else
  if existsb (λ i, bool_decide (hash i = h ∧ index i = vout)) (ins tb)
  then throw ErrDuplicateTxOut else
  if negb (UInt32 vout) then throw ErrUInt32 else
  Ok (set_ins tb (ins tb ++ [{| hash := h; index := vout; signer := None |}])).

(** [addOutput]: the address must have an output script on the
    builder's network, the value must pass [types.Satoshi]. *)
Definition addOutput (tb : TransactionBuilder) (address : string) (v : JsNumber.t)
    : result TransactionBuilder :=
  if negb (canModify tb) then throw ErrCannotModify else
  if negb (isAddress address (builder_network tb)) then throw ErrOutputScript else
  sats ← Satoshi v orelse ErrSatoshi;
  Ok (set_outs tb (outs tb ++ [{| script := address; value := sats |}])).

(** [sign(vin, keyPair)] with [getSigningData] and [trySign]. *)
Definition sign (tb : TransactionBuilder) (vin : nat) (k : ECPair)
    : result TransactionBuilder :=
  if negb (bool_decide (ecpair_network k = builder_network tb))
  then throw ErrInconsistentNetwork else
  match ins tb !! vin with
  | None => throw ErrNoInputAtIndex
  | Some i =>
      if bool_decide (outs tb = []) then throw ErrNeedsOutputs else
      if is_signed i then throw ErrAlreadySigned else
      Ok (set_ins tb (<[vin := {| hash := hash i; index := index i; signer := Some k |}]> (ins tb)))
  end.

(** [build()], that is [__build(false)]: the fee check at its end never
    fires, since inputs added by txid carry no value. *)
Definition build (tb : TransactionBuilder) : result Transaction :=
  if bool_decide (ins tb = []) then throw ErrNoInputs else
  if bool_decide (outs tb = []) then throw ErrNoOutputs else
  if negb (forallb is_signed (ins tb)) then throw ErrIncomplete else
  Ok {| tx_ins := ins tb; tx_outs := outs tb |}.

(** ** The builder as a state machine *)
Inductive op : Type :=
  | OpAddInput (txHash : string) (vout : Z)
  | OpAddOutput (address : string) (v : JsNumber.t)
  | OpSign (vin : nat) (k : ECPair).

Definition run_op (tb : TransactionBuilder) (o : op) : result TransactionBuilder :=
  match o with
  | OpAddInput h v => addInput tb h v
  | OpAddOutput a v => addOutput tb a v
  | OpSign i k => sign tb i k
  end.

Inductive step : TransactionBuilder → TransactionBuilder → Prop :=
  | step_op tb o tb' : run_op tb o = Ok tb' → step tb tb'.


Definition prevout (i : TxInput) : list Z * Z := (hash i, index i).

(** The invariant: distinct well-formed previous outputs, valid outputs,
    signatures by keys of the builder's network, and a signature only
    once an output exists. *)
Record wf (tb : TransactionBuilder) : Prop := {
  wf_nodup : NoDup (prevout <$> ins tb);
  wf_ins : Forall (λ i, length (hash i) = 32%nat ∧ isCoinbaseHash (hash i) = false
                        ∧ UInt32 (index i) = true) (ins tb);
  wf_outs : Forall (λ o, 0 <= value o <= SATOSHI_MAX
                         ∧ isAddress (script o) (builder_network tb) = true) (outs tb);
  wf_keys : Forall (λ i, ∀ k, signer i = Some k → ecpair_network k = builder_network tb) (ins tb);
  wf_signed_outs : canModify tb = false → outs tb ≠ [];
}.
End Builder.

Arguments TxInput {_}.
Arguments TransactionBuilder {_}.
Arguments Transaction {_}.
Arguments op {_}.

(** [tx.build().toHex()]: the wire serialization, with the signatures the
    keys produce. *)
Class TxHex `{ECPairLib} : Type := {
  toHex : Transaction → string;
}.

Section BuilderFacts.
Context `{ECPairLib}.
Implicit Types tb : TransactionBuilder.

(** Case analysis on every guard of an operation. *)
Local Ltac guards :=
  repeat (simplify_eq/=; first
    [ progress case_bool_decide
    | match goal with
      | H : negb _ = false |- _ => apply negb_false_iff in H
      | H : negb _ = true |- _ => apply negb_true_iff in H
      | H : Ok _ = Ok _ |- _ => injection H as H
      | |- context [if ?b then _ else _] => destruct b eqn:?
      | H : context [if ?b then _ else _] |- _ => destruct b eqn:?
      | H : context [match ?o with Some _ => _ | None => _ end] |- _ => destruct o eqn:?
      | |- context [match ?o with Some _ => _ | None => _ end] => destruct o eqn:?
      end ]).

Lemma addInput_Ok tb txh vout tb' :
  addInput tb txh vout = Ok tb' ↔
    canModify tb = true ∧ length (txHash_of_string txh) = 32%nat ∧
    isCoinbaseHash (txHash_of_string txh) = false ∧
    (∀ i, i ∈ ins tb → prevout i ≠ (txHash_of_string txh, vout)) ∧
    UInt32 vout = true ∧
    tb' = set_ins tb (ins tb ++ [{| hash := txHash_of_string txh; index := vout; signer := None |}]).
Proof.
  unfold addInput, prevout. split.
  - intros Hadd. guards; try discriminate. split_and!; try done.
    intros i Hi [= Hh Hv]. apply not_true_iff_false in Heqb1. apply Heqb1.
    apply existsb_exists. exists i. split; [by apply list_elem_of_In|].
    by apply bool_decide_eq_true.
  - intros (Hm & Hl & Hc & Hd & Hu & ->). rewrite Hm, Hc, Hu. simpl.
    rewrite bool_decide_eq_true_2 by done. simpl.
    destruct (existsb _ _) eqn:E; [|done].
    apply existsb_exists in E as (i & Hi%list_elem_of_In & Hb%bool_decide_eq_true).
    destruct (Hd i Hi). destruct Hb as [-> ->]. done.
Qed.

Lemma addOutput_Ok tb a v tb' :
  addOutput tb a v = Ok tb' ↔
    canModify tb = true ∧ isAddress a (builder_network tb) = true ∧
    ∃ sats, Satoshi v = Some sats ∧
            tb' = set_outs tb (outs tb ++ [{| script := a; value := sats |}]).
Proof.
  unfold addOutput. split.
  - intros Hadd. guards; try discriminate. inv_bind. simplify_eq. eauto.
  - intros (Hm & Ha & sats & Hs & ->). by rewrite Hm, Ha, Hs.
Qed.

Lemma sign_Ok tb vin k tb' :
  sign tb vin k = Ok tb' ↔
    ecpair_network k = builder_network tb ∧ outs tb ≠ [] ∧
    ∃ i, ins tb !! vin = Some i ∧ signer i = None ∧
         tb' = set_ins tb (<[vin := {| hash := hash i; index := index i; signer := Some k |}]> (ins tb)).
Proof.
  unfold sign, is_signed. split.
  - intros Hs. guards; try discriminate. eauto 10.
  - intros (Hn & Ho & i & Hi & Hsg & ->). rewrite bool_decide_eq_true_2 by done. simpl.
    rewrite Hi, bool_decide_eq_false_2 by done. by rewrite Hsg.
Qed.

Lemma build_Ok tb t :
  build tb = Ok t ↔
    ins tb ≠ [] ∧ outs tb ≠ [] ∧ Forall (λ i, is_signed i = true) (ins tb) ∧
    t = {| tx_ins := ins tb; tx_outs := outs tb |}.
Proof.
  unfold build. rewrite <- forallb_Forall. split.
  - intros Hb. guards; try discriminate. auto.
  - intros (Hi & Ho & Hs & ->). rewrite !bool_decide_eq_false_2 by done. by rewrite Hs.
Qed.
End BuilderFacts.

(** ** The txid codec: [getId] and the decoding of [addInput] *)

Lemma hex_digit_unhex c d : is_lower_hex c = true → unhex c = Some d → hex_digit d = c.
Proof.
  unfold is_lower_hex, unhex, hex_digit. intros Hc.
  set (n := nat_of_ascii c) in *.
  apply orb_true_iff in Hc as [Hc|Hc]; apply andb_true_iff in Hc as [Hc1 Hc2];
    apply Nat.leb_le in Hc1, Hc2;
    repeat match goal with |- context [(?a <=? ?b)%Z] => destruct (Z.leb_spec a b) end;
    simpl; intros; simplify_eq;
    match goal with |- context [(?a <? ?b)%Z] => destruct (Z.ltb_spec a b) end;
    (transitivity (ascii_of_nat n); [f_equal; lia|apply Ascii.ascii_nat_embedding]).
Qed.

Lemma unhex_lower c : is_lower_hex c = true → ∃ d, unhex c = Some d ∧ 0 <= d < 16.
Proof.
  unfold is_lower_hex, unhex. intros Hc.
  apply orb_true_iff in Hc as [Hc|Hc]; apply andb_true_iff in Hc as [Hc1 Hc2];
    apply Nat.leb_le in Hc1, Hc2;
    repeat match goal with |- context [(?a <=? ?b)%Z] => destruct (Z.leb_spec a b) end;
    simpl; first [exfalso; lia | eexists; split; [reflexivity|lia]].
Qed.

Lemma hex_encode_decode n l :
  length l = (2 * n)%nat → Forall (λ c, is_lower_hex c = true) l → hex_encode (hex_decode l) = l.
Proof.
  revert l. induction n as [|n IH]; intros l Hl Hhex; [by destruct l|].
  destruct l as [|a [|b r]]; simpl in Hl; try lia.
  inversion_clear Hhex as [|? ? Ha Hhex1]; inversion_clear Hhex1 as [|? ? Hb Hr].
  destruct (unhex_lower a Ha) as (x & Ex & Hx), (unhex_lower b Hb) as (y & Ey & Hy).
  simpl. rewrite Ex, Ey. simpl.
  replace ((16 * x + y) / 16) with x by (Z.div_mod_to_equations; lia).
  replace ((16 * x + y) mod 16) with y by (Z.div_mod_to_equations; lia).
  rewrite (hex_digit_unhex a x), (hex_digit_unhex b y), (IH r); auto with lia.
Qed.

(** A txid written as [getId] writes them (an even number of lowercase
    hex digits) is printed back unchanged from the hash [addInput]
    decodes. *)
Lemma txid_string_roundtrip s n :
  length (list_ascii_of_string s) = (2 * n)%nat →
  Forall (λ c, is_lower_hex c = true) (list_ascii_of_string s) →
  getId (txHash_of_string s) = s.
Proof.
  intros Hl Hhex. unfold txHash_of_string, getId.
  by rewrite rev_involutive, (hex_encode_decode n), string_of_list_ascii_of_string.
Qed.

Section BuilderInvariant.
Context `{ECPairLib}.
Implicit Types tb : TransactionBuilder.

Lemma wf_new n : wf (new n).
Proof. split; simpl; try constructor. done. Qed.

Lemma addInput_wf tb h v tb' : wf tb → addInput tb h v = Ok tb' → wf tb'.
Proof.
  intros [Hnd Hin Hout Hk Hso] (Hm & Hl & Hc & Hd & Hu & ->)%addInput_Ok.
  split; cbn [set_ins ins outs builder_network].
  - rewrite fmap_app. apply list.NoDup_app. split_and!; [done| |by apply list.NoDup_singleton].
    intros x (i & -> & Hi)%list_elem_of_fmap Hx. simpl in Hx.
    apply list_elem_of_singleton in Hx. by apply (Hd i).
  - apply Forall_app. split; [done|]. by repeat constructor.
  - done.
  - apply Forall_app. split; [done|]. repeat constructor. discriminate.
  - unfold canModify in *. cbn [set_ins ins]. rewrite forallb_app, Hm. done.
Qed.

Lemma addOutput_wf tb a v tb' : wf tb → addOutput tb a v = Ok tb' → wf tb'.
Proof.
  intros [Hnd Hin Hout Hk Hso] (Hm & Ha & sats & Hs & ->)%addOutput_Ok.
  pose proof (AmountFacts.Satoshi_Some _ _ Hs) as [_ Hr].
  split; simpl; rewrite ?Forall_app; auto.
  - unfold canModify in *. simpl. congruence.
Qed.

Lemma sign_wf tb vin k tb' : wf tb → sign tb vin k = Ok tb' → wf tb'.
Proof.
  intros [Hnd Hin Hout Hk Hso] (Hn & Ho & i & Hi & Hsg & ->)%sign_Ok.
  split; simpl; auto.
  - rewrite list_fmap_insert. unfold prevout at 1. simpl.
    rewrite list_insert_id; [done|]. by rewrite list_lookup_fmap, Hi.
  - apply Forall_insert; [done|]. simpl. by apply (Forall_lookup_1 _ _ _ _ Hin Hi).
  - apply Forall_insert; [done|]. simpl. by intros ? [= <-].
Qed.

Lemma step_wf tb tb' : step tb tb' → wf tb → wf tb'.
Proof.
  intros [tb0 [h v|a v|vin k] tb1 Hop] Hwf; simpl in Hop;
    eauto using addInput_wf, addOutput_wf, sign_wf.
Qed.

Lemma step_network tb tb' : step tb tb' → builder_network tb' = builder_network tb.
Proof.
  intros [tb0 [h v|a v|vin k] tb1 Hop]; simpl in Hop.
  - by apply addInput_Ok in Hop as (_ & _ & _ & _ & _ & ->).
  - by apply addOutput_Ok in Hop as (_ & _ & ? & _ & ->).
  - by apply sign_Ok in Hop as (_ & _ & ? & _ & _ & ->).
Qed.

Lemma rtc_step_wf tb tb' : rtc step tb tb' → wf tb → wf tb' ∧ builder_network tb' = builder_network tb.
Proof.
  intros Hr Hwf. revert tb' Hr.
  apply (rtc_ind_r (λ tb', wf tb' ∧ builder_network tb' = builder_network tb)); [done|].
  intros tb1 tb2 _ Hs [Hwf1 Hn]. split; [eauto using step_wf|].
  by rewrite (step_network _ _ Hs).
Qed.

End BuilderInvariant.

(** ** A serialization for the witnesses: the signed inputs' keys and the
    outputs, as text. *)
Module ToyBuilder.
Import ToyChain.

Definition show_input (i : @TxInput toy_ecpair) : string :=
  match signer i with Some k => ("in(" ++ k.1 ++ ")")%string | None => "in(unsigned)" end.

#[export] Instance toy_hex : @TxHex toy_ecpair := {|
  toHex t := String.concat ";" (map show_input (tx_ins t)
                                ++ map (λ o, (script o ++ ":" ++ pretty (value o))%string) (tx_outs t));
|}.
End ToyBuilder.
