(* ===== verification/Offchain.v ===== *)
(** * Building and signing the withdrawal transaction

    [prepareBitcoinSignedOffchainTransaction] (src/src/offchain/bitcoin.ts,
    lines 55-93) and [prepareLitecoinSignedOffchainTransaction]
    (src/offchain/litecoin.ts, lines 38-76) are the same code on a
    different network and wallet; [prepareSignedOffchainTransaction] models
    it once, on a [Currency].  It is cut along the code's statements:
    [addInputs] is the [forEach] of lines 60-64, [lastVin] line 66,
    [addOutputs] lines 67-75, [signInputs] the [for ... of] of lines 76-90
    with [input_key] the key each iteration computes, then [build] and
    [toHex] (line 92). *)
From Stdlib Require Import ZArith Lia Ascii String.
From stdpp Require Import pretty.
From S2P Require Import Prelude Amount Chain TxBuilder.
Local Open Scope Z_scope.

(** [WithdrawalResponseData.address] of ../model *)
Module DataAddress.
Record t : Type := mk { address : string; derivationKey : Z }.
End DataAddress.

(** [WithdrawalResponseData] of ../model: an entry of the [data] the
    ledger returns when the withdrawal is stored. *)
Module WithdrawalResponseData.
Record t : Type := mk {
  vIn : string;
  vInIndex : Z;
  amount : string;
  address : option DataAddress.t;
}.
End WithdrawalResponseData.

(** [KeyPair] of ../model *)
Module KeyPair.
Record t : Type := mk { address : string; private : string }.
End KeyPair.

Abbreviation WRD := WithdrawalResponseData.t.

Section Prepare.
Context `{ECPairLib} `{Wallet} `{!TxHex}.

(** [input.vIn === '-1']: the entry that carries the change amount. *)
Definition is_sentinel (d : WRD) : bool := bool_decide (WithdrawalResponseData.vIn d = "-1").

(** Lines 60-64: every entry but the sentinel becomes an input. *)
Definition addInputs (tx : TransactionBuilder) (data : list WRD) : result TransactionBuilder :=
  foldlM (λ tx input,
            if is_sentinel input then Ok tx
            else addInput tx (WithdrawalResponseData.vIn input) (WithdrawalResponseData.vInIndex input))
         tx data.

(** Line 66: [data.find(d => d.vIn === '-1')] *)
Definition lastVin (data : list WRD) : option WRD := List.find is_sentinel data.

(** Lines 67-75: the output to the recipient, then the change output to
    the first address of the mnemonic's wallet or to [changeAddress]. *)
Definition addOutputs (c : Currency) (testnet : bool) (tx : TransactionBuilder)
    (data : list WRD) (amount address : string) (mnemonic : option string)
    (keyPair : option (list KeyPair.t)) (changeAddress : option string)
    : result TransactionBuilder :=
  tx ← addOutput tx address (toBaseUnits amount);
  match truthy_string mnemonic with
  | Some m =>
      let xpub := generateWallet c testnet m in
      let change := generateAddressFromXPub c testnet xpub 0 in
      lv ← lastVin data orelse ErrLastVinUndefined;
      addOutput tx change (toBaseUnits (WithdrawalResponseData.amount lv))
  | None =>
      match truthy_object keyPair, truthy_string changeAddress with
      | true, Some ca =>
          lv ← lastVin data orelse ErrLastVinUndefined;
          addOutput tx ca (toBaseUnits (WithdrawalResponseData.amount lv))
      | _, _ => throw ErrCredentials
      end
  end.

(** [keyPair.find(k => k.address === input.address.address)]: the
    callback reads [input.address.address], so it throws on an input
    without address, but only when it runs, that is on a non-empty
    table. *)
Fixpoint findKeyPair (kps : list KeyPair.t) (input : WRD) : result (option KeyPair.t) :=
  match kps with
  | [] => Ok None
  | k :: kps' =>
      a ← WithdrawalResponseData.address input orelse ErrInputAddressUndefined;
      if bool_decide (KeyPair.address k = DataAddress.address a) then Ok (Some k)
      else findKeyPair kps' input
  end.

(** Lines 81-88 up to [tx.sign]: the key of a non-sentinel input. *)
Definition input_key (c : Currency) (testnet : bool) (mnemonic : option string)
    (keyPair : option (list KeyPair.t)) (input : WRD) : result ECPair :=
  let net := network_of c testnet in
  match truthy_string mnemonic with
  | Some m =>
      let derivationKey :=
        match WithdrawalResponseData.address input with
        | Some a => DataAddress.derivationKey a
        | None => 0
        end in
      fromWIF (generatePrivateKeyFromMnemonic c testnet m derivationKey) net orelse ErrInvalidWIF
  | None =>
      kps ← keyPair orelse ErrKeyPairUndefined;
      found ← findKeyPair kps input;
      privateKey ← found orelse ErrPrivateKeyUndefined;
      fromWIF (KeyPair.private privateKey) net orelse ErrInvalidWIF
  end.

(** Lines 76-90: [for (const [i, input] of data.entries())], skipping
    the sentinel, signing input [i] of the builder with the key of entry
    [i] of [data]. *)
Fixpoint signInputs (c : Currency) (testnet : bool) (mnemonic : option string)
    (keyPair : option (list KeyPair.t)) (i : nat) (tx : TransactionBuilder)
    (data : list WRD) : result TransactionBuilder :=
  match data with
  | [] => Ok tx
  | input :: rest =>
      tx' ← (if is_sentinel input then Ok tx
             else ecPair ← input_key c testnet mnemonic keyPair input; sign tx i ecPair);
      signInputs c testnet mnemonic keyPair (S i) tx' rest
  end.

Definition prepareSignedOffchainTransaction (c : Currency) (testnet : bool)
    (data : list WRD) (amount address : string) (mnemonic : option string)
    (keyPair : option (list KeyPair.t)) (changeAddress : option string) : result string :=
  let tx := new (network_of c testnet) in
  tx ← addInputs tx data;
  tx ← addOutputs c testnet tx data amount address mnemonic keyPair changeAddress;
  tx ← signInputs c testnet mnemonic keyPair 0 tx data;
  t ← build tx;
  Ok (toHex t).

(** bitcoin.ts lines 55-93 *)
Definition prepareBitcoinSignedOffchainTransaction (testnet : bool) (data : list WRD)
    (amount address : string) (mnemonic : option string)
    (keyPair : option (list KeyPair.t)) (changeAddress : option string) : result string :=
  prepareSignedOffchainTransaction BTC testnet data amount address mnemonic keyPair changeAddress.

(** litecoin.ts lines 38-76: the withdrawal id is passed and unused. *)
Definition prepareLitecoinSignedOffchainTransaction (testnet : bool) (id : string)
    (data : list WRD) (amount address : string) (mnemonic : option string)
    (keyPair : option (list KeyPair.t)) (changeAddress : option string) : result string :=
  prepareSignedOffchainTransaction LTC testnet data amount address mnemonic keyPair changeAddress.
End Prepare.

Module ToyEntries.
(** Entries for the witnesses: two spendable entries with 32-byte txids
    and the sentinel carrying 0.4995 of change. *)
Definition txid1 : string := "1111111111111111111111111111111111111111111111111111111111111111".
Definition txid2 : string := "2222222222222222222222222222222222222222222222222222222222222222".
Definition entry1 : WRD := WithdrawalResponseData.mk txid1 0 "2.0" (Some (DataAddress.mk "a1" 0)).
Definition entry2 : WRD := WithdrawalResponseData.mk txid2 1 "2.0" (Some (DataAddress.mk "a2" 5)).
Definition sentinel : WRD := WithdrawalResponseData.mk "-1" 0 "0.4995" None.
End ToyEntries.

(** ** Lemmas on the three phases of [prepareSignedOffchainTransaction] *)
Section PrepareFacts.
Context `{ECPairLib} `{Wallet} `{!TxHex}.
Implicit Types (tb : TransactionBuilder) (d : WRD) (data : list WRD).

(** The builder input an entry becomes, and the same input once signed. *)
Definition mk_input d : TxInput :=
  {| hash := txHash_of_string (WithdrawalResponseData.vIn d);
     index := WithdrawalResponseData.vInIndex d; signer := None |}.

Definition signed_input d (k : ECPair) : TxInput :=
  {| hash := txHash_of_string (WithdrawalResponseData.vIn d);
     index := WithdrawalResponseData.vInIndex d; signer := Some k |}.

Definition data_prevout d : list Z * Z :=
  (txHash_of_string (WithdrawalResponseData.vIn d), WithdrawalResponseData.vInIndex d).

(** The checks [addInput] makes on one entry. *)
Definition valid_input d : Prop :=
  length (txHash_of_string (WithdrawalResponseData.vIn d)) = 32%nat ∧
  isCoinbaseHash (txHash_of_string (WithdrawalResponseData.vIn d)) = false ∧
  UInt32 (WithdrawalResponseData.vInIndex d) = true.

(** A txid as the ledger and block explorers write it, and as [getId]
    prints it: 64 lowercase hex digits. *)
Definition is_txid (s : string) : Prop :=
  length (list_ascii_of_string s) = 64%nat ∧
  Forall (λ c, is_lower_hex c = true) (list_ascii_of_string s).

(** The address the change output pays to, when the credentials allow one. *)
Definition change_address (c : Currency) (testnet : bool) (mnemonic : option string)
    (keyPair : option (list KeyPair.t)) (changeAddress : option string) : option string :=
  match truthy_string mnemonic with
  | Some m => Some (generateAddressFromXPub c testnet (generateWallet c testnet m) 0)
  | None =>
      match truthy_object keyPair, truthy_string changeAddress with
      | true, Some ca => Some ca
      | _, _ => None
      end
  end.

Lemma addInputs_sentinels tb data :
  Forall (λ d, is_sentinel d = true) data → addInputs tb data = Ok tb.
Proof.
  unfold addInputs. intros Hs. revert tb.
  induction Hs as [|d data Hd _ IH]; intros tb; simpl; [done|]. rewrite Hd. apply IH.
Qed.

Lemma addInputs_spend tb data :
  canModify tb = true →
  Forall (λ d, is_sentinel d = false ∧ valid_input d) data →
  NoDup ((prevout <$> ins tb) ++ (data_prevout <$> data)) →
  addInputs tb data = Ok (set_ins tb (ins tb ++ (mk_input <$> data))).
Proof.
  unfold addInputs. intros Hm Hv. revert tb Hm.
  induction Hv as [|d data [Hns (Hl & Hc & Hu)] _ IH]; intros tb Hm Hnd; simpl.
  { rewrite app_nil_r. by destruct tb. }
  rewrite Hns.
  assert (addInput tb (WithdrawalResponseData.vIn d) (WithdrawalResponseData.vInIndex d)
          = Ok (set_ins tb (ins tb ++ [mk_input d]))) as ->.
  { apply addInput_Ok. split_and!; try done.
    intros i Hi Heq. apply list.NoDup_app in Hnd as (_ & Hdis & _).
    apply (Hdis (prevout i)); [by apply list_elem_of_fmap_2|].
    rewrite Heq. simpl. by left. }
  simpl. rewrite IH.
  - simpl. by rewrite <- app_assoc.
  - unfold canModify in *. simpl. rewrite forallb_app, Hm. done.
  - simpl. rewrite fmap_app, <- app_assoc. done.
Qed.

Lemma lastVin_app data1 data2 :
  Forall (λ d, is_sentinel d = false) data1 → lastVin (data1 ++ data2) = lastVin data2.
Proof.
  unfold lastVin. induction 1 as [|d data1 Hd _ IH]; simpl; [done|]. by rewrite Hd.
Qed.

Lemma addOutputs_spec c testnet tb data amount address mnemonic keyPair changeAddress
    lv change v1 v2 :
  canModify tb = true →
  lastVin data = Some lv →
  Satoshi (toBaseUnits amount) = Some v1 →
  Satoshi (toBaseUnits (WithdrawalResponseData.amount lv)) = Some v2 →
  change_address c testnet mnemonic keyPair changeAddress = Some change →
  isAddress address (builder_network tb) = true →
  isAddress change (builder_network tb) = true →
  addOutputs c testnet tb data amount address mnemonic keyPair changeAddress
  = Ok (set_outs tb (outs tb ++ [{| script := address; value := v1 |};
                                 {| script := change; value := v2 |}])).
Proof.
  intros Hm Hlv Hv1 Hv2 Hch Ha Hc. unfold addOutputs, change_address in *.
  assert (addOutput tb address (toBaseUnits amount)
          = Ok (set_outs tb (outs tb ++ [{| script := address; value := v1 |}]))) as ->
    by (apply addOutput_Ok; eauto).
  simpl. rewrite Hlv. simpl.
  assert (∀ a, a = change →
    addOutput (set_outs tb (outs tb ++ [{| script := address; value := v1 |}])) a
              (toBaseUnits (WithdrawalResponseData.amount lv))
    = Ok (set_outs tb (outs tb ++ [{| script := address; value := v1 |};
                                   {| script := change; value := v2 |}]))) as Hadd.
  { intros a ->. apply addOutput_Ok. split_and!; [done|done|].
    exists v2. split; [done|]. simpl. by rewrite <- app_assoc. }
  destruct (truthy_string mnemonic); [by apply Hadd; injection Hch|].
  destruct (truthy_object keyPair), (truthy_string changeAddress); try discriminate.
  by apply Hadd; injection Hch.
Qed.

Lemma input_key_network c testnet mnemonic keyPair d k :
  input_key c testnet mnemonic keyPair d = Ok k → ecpair_network k = network_of c testnet.
Proof.
  unfold input_key. destruct (truthy_string mnemonic).
  - intros ?%defined_Ok. by eapply fromWIF_network.
  - intros Hk. inv_bind. by eapply fromWIF_network.
Qed.

Lemma signInputs_app c testnet mnemonic keyPair i tb data1 data2 :
  signInputs c testnet mnemonic keyPair i tb (data1 ++ data2)
  = (tb' ← signInputs c testnet mnemonic keyPair i tb data1;
     signInputs c testnet mnemonic keyPair (i + length data1) tb' data2).
Proof.
  revert i tb. induction data1 as [|d data1 IH]; intros i tb; simpl.
  - by rewrite Nat.add_0_r.
  - destruct (if is_sentinel d then _ else _); simpl; [|done].
    rewrite IH. by rewrite Nat.add_succ_r.
Qed.

Lemma signInputs_sentinels c testnet mnemonic keyPair i tb data :
  Forall (λ d, is_sentinel d = true) data → signInputs c testnet mnemonic keyPair i tb data = Ok tb.
Proof.
  intros Hs. revert i tb. induction Hs as [|d data Hd _ IH]; intros i tb; simpl; [done|].
  rewrite Hd. apply IH.
Qed.

(** Signing the entries [data] that sit at positions [length pre] onwards
    of the builder signs each with its own key. *)
Lemma signInputs_spend c testnet mnemonic keyPair tb pre post data :
  ins tb = pre ++ (mk_input <$> data) ++ post →
  outs tb ≠ [] → builder_network tb = network_of c testnet →
  Forall (λ d, is_sentinel d = false ∧ ∃ k, input_key c testnet mnemonic keyPair d = Ok k) data →
  ∃ ks, Forall2 (λ d k, input_key c testnet mnemonic keyPair d = Ok k) data ks ∧
    signInputs c testnet mnemonic keyPair (length pre) tb data
    = Ok (set_ins tb (pre ++ zip_with signed_input data ks ++ post)).
Proof.
  intros Hins Ho Hn Hall. revert tb pre Hins Ho Hn.
  induction Hall as [|d data [Hns (k & Hk)] _ IH]; intros tb pre Hins Ho Hn; simpl.
  { exists []. split; [done|]. destruct tb; simpl in *. by rewrite <- Hins. }
  rewrite Hns, Hk. simpl.
  assert (sign tb (length pre) k
          = Ok (set_ins tb ((pre ++ [signed_input d k]) ++ (mk_input <$> data) ++ post))) as ->.
  { apply sign_Ok. split_and!; [by rewrite (input_key_network _ _ _ _ _ _ Hk)|done|].
    exists (mk_input d). split_and!; [|done|].
    - rewrite Hins, lookup_app_r, Nat.sub_diag by lia. done.
    - rewrite Hins, insert_app_r_alt, Nat.sub_diag by lia. simpl.
      by rewrite <- app_assoc. }
  destruct (IH (set_ins tb ((pre ++ [signed_input d k]) ++ (mk_input <$> data) ++ post))
               (pre ++ [signed_input d k])) as (ks & Hks & Hsign); [done|done|done|].
  rewrite length_app in Hsign. simpl in Hsign. rewrite Nat.add_1_r in Hsign.
  exists (k :: ks). split; [by constructor|]. simpl. rewrite Hsign. simpl.
  unfold set_ins. simpl. by rewrite <- !app_assoc.
Qed.
End PrepareFacts.

(** ** Lemmas for the failure theorems *)
Section PrepareBounds.
Context `{ECPairLib} `{Wallet} `{!TxHex}.
Implicit Types (tb : TransactionBuilder) (d : WRD) (data : list WRD).

Definition spendable d : Prop := is_sentinel d = false.

(** The [forEach] of lines 60-64 appends one input per spendable entry,
    in the order of [data]. *)
Lemma addInputs_ins tb data tb' :
  addInputs tb data = Ok tb' → ins tb' = ins tb ++ (mk_input <$> filter spendable data).
Proof.
  unfold addInputs. revert tb. induction data as [|d data IH]; intros tb Hf; simpl in Hf.
  - injection Hf as <-. by rewrite app_nil_r.
  - rewrite filter_cons. case_decide as Hsp; unfold spendable in Hsp.
    + rewrite Hsp in Hf. simpl in Hf. inv_bind.
      apply addInput_Ok in Ha as (_ & _ & _ & _ & _ & ->).
      rewrite (IH _ Hf). simpl. by rewrite <- app_assoc.
    + apply not_false_iff_true in Hsp. rewrite Hsp in Hf. simpl in Hf. by rewrite (IH _ Hf).
Qed.

Lemma addInputs_length tb data tb' :
  addInputs tb data = Ok tb' →
  length (ins tb') = (length (ins tb) + length (filter spendable data))%nat.
Proof. intros Hf. by rewrite (addInputs_ins _ _ _ Hf), length_app, length_fmap. Qed.

(** Signing changes no previous output. *)
Lemma signInputs_prevouts c testnet mnemonic keyPair i tb data tb' :
  signInputs c testnet mnemonic keyPair i tb data = Ok tb' → prevout <$> ins tb' = prevout <$> ins tb.
Proof.
  revert i tb. induction data as [|d data IH]; intros i tb Hs; simpl in Hs; [by injection Hs as <-|].
  inv_bind. rewrite (IH _ _ Hs). destruct (is_sentinel d); [by injection Ha as <-|]. inv_bind.
  apply sign_Ok in Ha as (_ & _ & x & Hx & _ & ->). simpl.
  rewrite list_fmap_insert. unfold prevout at 1. simpl.
  rewrite list_insert_id; [done|]. by rewrite list_lookup_fmap, Hx.
Qed.

Lemma addOutputs_ins c testnet tb data amount address mnemonic keyPair changeAddress tb' :
  addOutputs c testnet tb data amount address mnemonic keyPair changeAddress = Ok tb' →
  ins tb' = ins tb.
Proof.
  unfold addOutputs. intros Hout. inv_bind.
  apply addOutput_Ok in Ha as (_ & _ & ? & _ & ->).
  destruct (truthy_string mnemonic); [|destruct (truthy_object keyPair), (truthy_string changeAddress)];
    try discriminate; inv_bind; by apply addOutput_Ok in Hout as (_ & _ & ? & _ & ->).
Qed.

Lemma addOutputs_no_lastVin c testnet tb data amount address mnemonic keyPair changeAddress :
  lastVin data = None →
  ∃ e, addOutputs c testnet tb data amount address mnemonic keyPair changeAddress = Throw e.
Proof.
  unfold addOutputs. intros Hlv.
  destruct (addOutput tb address (toBaseUnits amount)); simpl; [|eauto].
  rewrite Hlv. destruct (truthy_string mnemonic); [eauto|].
  destruct (truthy_object keyPair), (truthy_string changeAddress); simpl; eauto.
Qed.

(** Every index the signing loop signs is an input of the builder. *)
Lemma signInputs_bound c testnet mnemonic keyPair i tb data tb' :
  signInputs c testnet mnemonic keyPair i tb data = Ok tb' →
  ∀ j d, data !! j = Some d → spendable d → (i + j < length (ins tb))%nat.
Proof.
  revert i tb. induction data as [|d0 data IH]; intros i tb Hs j d Hj Hd; [done|].
  simpl in Hs. inv_bind.
  assert (length (ins a) = length (ins tb) ∧ (spendable d0 → i < length (ins tb))%nat)
    as [Hlen Hi].
  { unfold spendable. destruct (is_sentinel d0); [by injection Ha as <-|]. inv_bind.
    apply sign_Ok in Ha as (_ & _ & i0 & Hi0 & _ & ->). simpl.
    rewrite length_insert. split; [done|]. intros _. by eapply lookup_lt_Some. }
  destruct j as [|j]; simpl in Hj.
  - injection Hj as ->. specialize (Hi Hd). lia.
  - specialize (IH _ _ Hs j d Hj Hd). lia.
Qed.

(** A list with a spendable entry splits at its last spendable entry. *)
Lemma last_spendable data :
  Exists spendable data →
  ∃ l1 d l2, data = l1 ++ d :: l2 ∧ spendable d ∧ Forall (λ d, is_sentinel d = true) l2.
Proof.
  induction data as [|x data IH]; intros Hex; [by inversion Hex|].
  destruct (decide (Exists spendable data)) as [Hr|Hr].
  - destruct (IH Hr) as (l1 & d & l2 & -> & Hd & Hl2). by exists (x :: l1), d, l2.
  - inversion Hex as [? ? Hx|]; subst; [|done].
    exists [], x, data. split_and!; [done|done|].
    apply Forall_forall. intros y Hy. unfold spendable in Hr.
    destruct (is_sentinel y) eqn:E; [done|]. exfalso. apply Hr, Exists_exists. eauto.
Qed.

Lemma findKeyPair_address kps d a :
  WithdrawalResponseData.address d = Some a →
  findKeyPair kps d = Ok (List.find (λ k, bool_decide (KeyPair.address k = DataAddress.address a)) kps).
Proof.
  intros Ha. induction kps as [|k kps IH]; simpl; [done|]. rewrite Ha. simpl.
  by case_bool_decide.
Qed.

Lemma signInputs_ext c testnet m1 k1 m2 k2 i tb data :
  (∀ d, d ∈ data → spendable d → input_key c testnet m1 k1 d = input_key c testnet m2 k2 d) →
  signInputs c testnet m1 k1 i tb data = signInputs c testnet m2 k2 i tb data.
Proof.
  revert i tb. induction data as [|d data IH]; intros i tb Hk; simpl; [done|].
  destruct (is_sentinel d) eqn:E.
  - simpl. apply IH. intros; apply Hk; [by right|done].
  - rewrite Hk by (done || by left). destruct (input_key c testnet m2 k2 d); simpl; [|done].
    destruct (sign tb i a); simpl; [|done]. apply IH. intros; apply Hk; [by right|done].
Qed.
End PrepareBounds.

(** ** What [prepareSignedOffchainTransaction] does *)
Section PrepareSpec.
Context `{ECPairLib} `{Wallet} `{!TxHex}.
Implicit Types (tb : TransactionBuilder) (d : WRD) (data : list WRD).

Lemma addInputs_app tb data1 data2 :
  addInputs tb (data1 ++ data2) = (tb' ← addInputs tb data1; addInputs tb' data2).
Proof. apply foldlM_app. Qed.

Lemma canModify_mk_inputs tb data : canModify (set_ins tb (mk_input <$> data)) = true.
Proof. unfold canModify. simpl. induction data; simpl; auto. Qed.

Lemma signed_inputs_signed data ks :
  Forall (λ i, is_signed i = true) (zip_with signed_input data ks).
Proof.
  revert ks. induction data as [|d data IH]; intros [|k ks]; simpl; constructor; auto.
Qed.

(** The build of a well-formed request, for the theorems that compose it. *)
Lemma prepare_signs_inputs_spec c testnet spend lv sent amount address mnemonic keyPair
    changeAddress change v1 v2 :
  spend ≠ [] →
  Forall (λ d, spendable d ∧ valid_input d) spend →
  NoDup (data_prevout <$> spend) →
  Forall (λ d, is_sentinel d = true) (lv :: sent) →
  Satoshi (toBaseUnits amount) = Some v1 →
  Satoshi (toBaseUnits (WithdrawalResponseData.amount lv)) = Some v2 →
  change_address c testnet mnemonic keyPair changeAddress = Some change →
  isAddress address (network_of c testnet) = true →
  isAddress change (network_of c testnet) = true →
  Forall (λ d, ∃ k, input_key c testnet mnemonic keyPair d = Ok k) spend →
  ∃ ks, Forall2 (λ d k, input_key c testnet mnemonic keyPair d = Ok k) spend ks ∧
    prepareSignedOffchainTransaction c testnet (spend ++ lv :: sent) amount address
      mnemonic keyPair changeAddress
    = Ok (toHex {| tx_ins := zip_with signed_input spend ks;
                   tx_outs := [{| script := address; value := v1 |};
                               {| script := change; value := v2 |}] |}).
Proof.
  intros Hne Hsp Hnd Hsent Hv1 Hv2 Hch Ha Hc Hkeys.
  inversion Hsent as [|? ? Hlv Hrest]; subst.
  unfold prepareSignedOffchainTransaction.
  rewrite addInputs_app, (addInputs_spend (new (network_of c testnet)) spend); simpl;
    [|done|exact Hsp|done].
  rewrite addInputs_sentinels by done. simpl.
  assert (lastVin (spend ++ lv :: sent) = Some lv) as Hlast.
  { rewrite lastVin_app by (eapply List.Forall_impl; [|exact Hsp]; intros ? [Hx _]; exact Hx).
    unfold lastVin. simpl. by rewrite Hlv. }
  rewrite (addOutputs_spec _ _ _ _ _ _ _ _ _ lv change v1 v2)
    by (apply canModify_mk_inputs || done). simpl.
  rewrite signInputs_app.
  destruct (signInputs_spend c testnet mnemonic keyPair
              (set_outs (set_ins (new (network_of c testnet)) (mk_input <$> spend))
                 [{| script := address; value := v1 |}; {| script := change; value := v2 |}])
              [] [] spend) as (ks & Hks & Hsign);
    [by rewrite app_nil_r|done|done|
     apply List.Forall_and; [eapply List.Forall_impl; [|exact Hsp]; intros ? [Hx _]; exact Hx|exact Hkeys]|].
  exists ks. split; [done|]. simpl in Hsign. rewrite Hsign. simpl.
  rewrite Hlv. simpl. rewrite signInputs_sentinels by done. simpl.
  assert (zip_with signed_input spend ks ≠ []).
  { destruct spend, ks; simpl; try done. by apply Forall2_length in Hks. }
  unfold build. simpl. rewrite app_nil_r.
  rewrite !bool_decide_eq_false_2 by done.
  rewrite (proj2 (forallb_Forall _ _) (signed_inputs_signed _ _)). done.
Qed.

(** C1: with the sentinel entries after the spendable ones, valid
    distinct previous outputs, valid amounts and addresses, credentials
    that give a change address, and a key for every spendable entry, the
    transaction is built: its inputs are the spendable entries in their
    order, input j signed with the key of entry j, and its outputs are
    exactly the payment and the change of the first sentinel entry. *)
Theorem prepare_signs_inputs c testnet spend lv sent amount address mnemonic keyPair
    changeAddress change v1 v2 :
  spend ≠ [] →
  Forall (λ d, spendable d ∧ valid_input d) spend →
  NoDup (data_prevout <$> spend) →
  Forall (λ d, is_sentinel d = true) (lv :: sent) →
  Satoshi (toBaseUnits amount) = Some v1 →
  Satoshi (toBaseUnits (WithdrawalResponseData.amount lv)) = Some v2 →
  change_address c testnet mnemonic keyPair changeAddress = Some change →
  isAddress address (network_of c testnet) = true →
  isAddress change (network_of c testnet) = true →
  Forall (λ d, ∃ k, input_key c testnet mnemonic keyPair d = Ok k) spend →
  ∃ ks, Forall2 (λ d k, input_key c testnet mnemonic keyPair d = Ok k) spend ks ∧
    prepareSignedOffchainTransaction c testnet (spend ++ lv :: sent) amount address
      mnemonic keyPair changeAddress
    = Ok (toHex {| tx_ins := zip_with signed_input spend ks;
                   tx_outs := [{| script := address; value := v1 |};
                               {| script := change; value := v2 |}] |}).
Proof. apply prepare_signs_inputs_spec. Qed.
(** The inputs of entries with txids, read back with [getId]. *)
Lemma getId_inputs l :
  Forall (λ d, is_txid (WithdrawalResponseData.vIn d)) l →
  (λ i, (getId (hash i), index i)) <$> (mk_input <$> l)
  = (λ d, (WithdrawalResponseData.vIn d, WithdrawalResponseData.vInIndex d)) <$> l.
Proof.
  induction 1 as [|d l [Hl Hh] _ IH]; [done|]. rewrite !fmap_cons, IH. f_equal.
  unfold mk_input. simpl. by rewrite (txid_string_roundtrip _ 32).
Qed.

(** C23: round trip, from the ledger's entries to the transaction and
    back.  Whatever the credentials and amounts, every raw transaction
    [prepareSignedOffchainTransaction] returns serializes a transaction
    whose inputs, read back as the txids [getId] prints and their output
    indices, are exactly the spendable entries' [vIn] and [vInIndex], in
    the order of [data]: [addInput]'s reversed-byte decoding of the txid
    is undone, and signing changes no input's previous output. *)
Theorem prepare_spends_entries c testnet data amount address mnemonic keyPair changeAddress hex :
  prepareSignedOffchainTransaction c testnet data amount address mnemonic keyPair changeAddress
    = Ok hex →
  Forall (λ d, is_txid (WithdrawalResponseData.vIn d)) (filter spendable data) →
  ∃ t, hex = toHex t ∧
    (λ i, (getId (hash i), index i)) <$> tx_ins t
    = (λ d, (WithdrawalResponseData.vIn d, WithdrawalResponseData.vInIndex d)) <$> filter spendable data.
Proof.
  unfold prepareSignedOffchainTransaction. intros Hp Htx. inv_bind. subst hex.
  apply build_Ok in Ha2 as (_ & _ & _ & ->).
  eexists. split; [reflexivity|]. simpl.
  assert (E : ∀ L : list TxInput, (λ i, (getId (hash i), index i)) <$> L
                = (λ pr : list Z * Z, (getId pr.1, pr.2)) <$> (prevout <$> L))
    by (intros L; by rewrite <- list_fmap_compose).
  rewrite E, (signInputs_prevouts _ _ _ _ _ _ _ _ Ha1), <- E, (addOutputs_ins _ _ _ _ _ _ _ _ _ _ Ha0),
    (addInputs_ins _ _ _ Ha). by apply getId_inputs.
Qed.
End PrepareSpec.

Section PrepareFailures.
Context `{ECPairLib} `{Wallet} `{!TxHex}.
Implicit Types (tb : TransactionBuilder) (d : WRD) (data : list WRD).

Lemma filter_spendable_sentinels data :
  Forall (λ d, is_sentinel d = true) data → filter spendable data = [].
Proof.
  induction 1 as [|d data Hd _ IH]; [done|].
  rewrite filter_cons_False; [done|]. unfold spendable. by rewrite Hd.
Qed.

(** With a sentinel before the last spendable entry [d], there are
    fewer spendable entries than [d]'s index. *)
Lemma spendable_count_sentinel_first pre s l1 d l2 :
  is_sentinel s = true → Forall (λ d, is_sentinel d = true) l2 →
  (length (filter spendable (pre ++ s :: l1 ++ d :: l2)) <= length pre + length l1 + 1)%nat.
Proof.
  intros Hs Hl2. rewrite !list.filter_app, filter_cons_False by (unfold spendable; by rewrite Hs).
  rewrite list.filter_app, filter_cons, (filter_spendable_sentinels l2) by done.
  pose proof (length_filter spendable pre). pose proof (length_filter spendable l1).
  rewrite !length_app. case_decide; simpl; lia.
Qed.

(** C2: the loop signs builder input [i] with the key of entry [i] of
    [data], counting the sentinel, while the builder numbers only the
    spendable entries.  So when a sentinel entry precedes a spendable one
    no transaction is ever returned, whatever the credentials and
    amounts: the last spendable entry's index is past the last input. *)
Theorem prepare_sentinel_first_throws c testnet pre s post amount address mnemonic
    keyPair changeAddress :
  is_sentinel s = true → Exists spendable post →
  ∃ e, prepareSignedOffchainTransaction c testnet (pre ++ s :: post) amount address
         mnemonic keyPair changeAddress = Throw e.
Proof.
  intros Hs Hex. unfold prepareSignedOffchainTransaction.
  destruct (addInputs _ _) as [tb1|e] eqn:E1; simpl; [|eauto].
  destruct (addOutputs _ _ _ _ _ _ _ _ _) as [tb2|e] eqn:E2; simpl; [|eauto].
  destruct (signInputs _ _ _ _ _ _ _) as [tb3|e] eqn:E3; simpl; [exfalso|eauto].
  destruct (last_spendable _ Hex) as (l1 & d & l2 & -> & Hd & Hl2).
  pose proof (signInputs_bound _ _ _ _ _ _ _ _ E3 (length (pre ++ s :: l1)) d) as Hb.
  rewrite (addOutputs_ins _ _ _ _ _ _ _ _ _ _ E2), (addInputs_length _ _ _ E1) in Hb.
  rewrite app_comm_cons, app_assoc, lookup_app_r, Nat.sub_diag in Hb by done.
  specialize (Hb eq_refl Hd).
  pose proof (spendable_count_sentinel_first pre s l1 d l2 Hs Hl2).
  rewrite length_app, <- app_assoc in Hb. simpl in Hb. lia.
Qed.

Lemma lastVin_None data :
  Forall spendable data → lastVin data = None.
Proof. unfold lastVin. induction 1 as [|d data Hd _ IH]; simpl; [done|]. by rewrite Hd. Qed.

(** C10: without a sentinel entry there is no change amount to read, and
    no transaction is returned (spec section 3: the sentinel's absence is
    a precondition violation). *)
Theorem prepare_no_sentinel_throws c testnet data amount address mnemonic keyPair
    changeAddress :
  Forall spendable data →
  ∃ e, prepareSignedOffchainTransaction c testnet data amount address mnemonic keyPair
         changeAddress = Throw e.
Proof.
  intros Hsp. unfold prepareSignedOffchainTransaction.
  destruct (addInputs _ _) as [tb1|e]; simpl; [|eauto].
  destruct (addOutputs_no_lastVin c testnet tb1 data amount address mnemonic keyPair
              changeAddress (lastVin_None _ Hsp)) as [e ->].
  simpl. eauto.
Qed.

(** C11: without a mnemonic and without both a key table and a change
    address no transaction is returned; once the inputs and the payment
    output have been added the error is the one of line 74.  Inputs and
    the payment output are added first, so their errors come before it. *)
Theorem prepare_no_credentials_throws c testnet data amount address mnemonic keyPair
    changeAddress :
  truthy_string mnemonic = None →
  keyPair = None ∨ truthy_string changeAddress = None →
  ∃ e, prepareSignedOffchainTransaction c testnet data amount address mnemonic keyPair
         changeAddress = Throw e ∧
    ∀ tb1 tb2, addInputs (new (network_of c testnet)) data = Ok tb1 →
               addOutput tb1 address (toBaseUnits amount) = Ok tb2 → e = ErrCredentials.
Proof.
  intros Hm Hk. unfold prepareSignedOffchainTransaction, addOutputs.
  destruct (addInputs _ _) as [tb1|e] eqn:E1; simpl;
    [|exists e; split; [done|]; intros ? ? [=]].
  destruct (addOutput tb1 _ _) as [tb2|e] eqn:E2; simpl;
    [|exists e; split; [done|]; intros ? ? [= <-]; congruence].
  rewrite Hm. exists ErrCredentials. split; [|done].
  destruct Hk as [->| ->]; [done|]. by destruct keyPair.
Qed.

(** C7: the two kinds of credentials are interchangeable.  When the key
    table holds, for the address of every spendable entry, the WIF key
    the mnemonic derives at that entry's derivation index, and the change
    address is the mnemonic wallet's first address, signing with the
    table gives exactly what signing with the mnemonic gives, errors
    included (spec section 8, cross-mode consistency). *)
Theorem prepare_cross_mode c testnet data amount address m kps ca :
  m ≠ "" → ca ≠ "" →
  ca = generateAddressFromXPub c testnet (generateWallet c testnet m) 0 →
  (∀ d, d ∈ data → spendable d →
     ∃ a kp, WithdrawalResponseData.address d = Some a ∧
       List.find (λ k, bool_decide (KeyPair.address k = DataAddress.address a)) kps = Some kp ∧
       KeyPair.private kp = generatePrivateKeyFromMnemonic c testnet m (DataAddress.derivationKey a)) →
  prepareSignedOffchainTransaction c testnet data amount address None (Some kps) (Some ca)
  = prepareSignedOffchainTransaction c testnet data amount address (Some m) None None.
Proof.
  intros Hm Hca -> Hkeys. unfold prepareSignedOffchainTransaction.
  destruct (addInputs _ _) as [tb1|e]; simpl; [|done].
  assert (addOutputs c testnet tb1 data amount address None (Some kps)
            (Some (generateAddressFromXPub c testnet (generateWallet c testnet m) 0))
          = addOutputs c testnet tb1 data amount address (Some m) None None) as ->.
  { unfold addOutputs, truthy_string. by rewrite !bool_decide_eq_false_2 by done. }
  destruct (addOutputs _ _ _ _ _ _ _ _ _) as [tb2|e]; simpl; [|done].
  rewrite (signInputs_ext c testnet None (Some kps) (Some m) None); [done|].
  intros d Hd Hsp. destruct (Hkeys d Hd Hsp) as (a & kp & Ha & Hf & Hp).
  unfold input_key, truthy_string. rewrite bool_decide_eq_false_2 by done. simpl.
  rewrite (findKeyPair_address _ _ _ Ha), Hf. simpl. by rewrite Hp, Ha.
Qed.
End PrepareFailures.

(** ** Witnesses *)
Module Examples.
Import ToyChain ToyBuilder ToyEntries.

Lemma prepare_signs_inputs_witness :
  ∃ ks, Forall2 (λ d k, input_key BTC false (Some "seed") None d = Ok k) [entry1; entry2] ks ∧
    prepareSignedOffchainTransaction BTC false ([entry1; entry2] ++ [sentinel]) "1.5" "addrA"
      (Some "seed") None None
    = Ok (toHex {| tx_ins := zip_with signed_input [entry1; entry2] ks;
                   tx_outs := [{| script := "addrA"; value := 150000000 |};
                               {| script := "xpub:seed/0"; value := 49950000 |}] |}).
Proof.
  apply (prepare_signs_inputs BTC false [entry1; entry2] sentinel [] "1.5" "addrA"
           (Some "seed") None None "xpub:seed/0" 150000000 49950000).
  - discriminate.
  - repeat constructor.
  - apply (bool_decide_unpack _). vm_compute. reflexivity.
  - repeat constructor.
  - vm_compute. reflexivity.
  - vm_compute. reflexivity.
  - vm_compute. reflexivity.
  - vm_compute. reflexivity.
  - vm_compute. reflexivity.
  - repeat constructor; eexists; vm_compute; reflexivity.
Defined.

Lemma prepare_sentinel_first_throws_witness :
  ∃ e, prepareSignedOffchainTransaction BTC false ([entry1] ++ sentinel :: [entry2]) "1.5"
         "addrA" (Some "seed") None None = Throw e.
Proof.
  apply (prepare_sentinel_first_throws BTC false [entry1] sentinel [entry2]).
  - reflexivity.
  - constructor. reflexivity.
Defined.

(** The exception is [sign]'s: the last spendable entry has index 2 and
    the builder has two inputs. *)
Example prepare_sentinel_first_error :
  prepareSignedOffchainTransaction BTC false [entry1; sentinel; entry2] "1.5" "addrA"
    (Some "seed") None None = Throw ErrNoInputAtIndex.
Proof. vm_compute. reflexivity. Qed.

Lemma prepare_no_sentinel_throws_witness :
  ∃ e, prepareSignedOffchainTransaction BTC false [entry1; entry2] "1.5" "addrA"
         (Some "seed") None None = Throw e.
Proof.
  apply (prepare_no_sentinel_throws BTC false [entry1; entry2]).
  repeat constructor.
Defined.

Lemma prepare_no_credentials_throws_witness :
  ∃ e, prepareSignedOffchainTransaction BTC false [entry1; sentinel] "1.5" "addrA"
         None (Some []) None = Throw e ∧
    ∀ tb1 tb2, addInputs (new (network_of BTC false)) [entry1; sentinel] = Ok tb1 →
               addOutput tb1 "addrA" (toBaseUnits "1.5") = Ok tb2 → e = ErrCredentials.
Proof.
  apply (prepare_no_credentials_throws BTC false [entry1; sentinel] "1.5" "addrA" None (Some [])).
  - reflexivity.
  - right. reflexivity.
Defined.

Lemma prepare_cross_mode_witness :
  prepareSignedOffchainTransaction BTC false [entry1; entry2; sentinel] "1.5" "addrA" None
    (Some [KeyPair.mk "a2" "wif:seed/5"; KeyPair.mk "a1" "wif:seed/0"]) (Some "xpub:seed/0")
  = prepareSignedOffchainTransaction BTC false [entry1; entry2; sentinel] "1.5" "addrA"
      (Some "seed") None None.
Proof.
  apply (prepare_cross_mode BTC false [entry1; entry2; sentinel] "1.5" "addrA" "seed"
           [KeyPair.mk "a2" "wif:seed/5"; KeyPair.mk "a1" "wif:seed/0"] "xpub:seed/0").
  - discriminate.
  - discriminate.
  - vm_compute. reflexivity.
  - intros d Hd Hsp. rewrite !elem_of_cons in Hd.
    destruct Hd as [->|[->|[->|Hd]]].
    + do 2 eexists. split_and!; reflexivity.
    + do 2 eexists. split_and!; reflexivity.
    + discriminate.
    + by apply elem_of_nil in Hd.
Defined.

(** Finding, on a concrete run: the scenario of spec section 8 as written: its txid "abc" is no
    32-byte hash, and [addInput] rejects it before anything is signed. *)
Example prepare_spec_scenario_txid :
  prepareSignedOffchainTransaction BTC false
    [WithdrawalResponseData.mk "abc" 0 "2.0" (Some (DataAddress.mk "a" 0)); sentinel]
    "1.5" "addrA" (Some "seed") None None = Throw ErrHash256bit.
Proof. vm_compute. reflexivity. Qed.

(** Finding, on a concrete run: an input set with the sentinel alone, which spec section 4.3
    calls legal, gives a transaction without inputs, which [build]
    refuses. *)
Example prepare_only_sentinel_throws :
  prepareSignedOffchainTransaction BTC false [sentinel] "1.5" "addrA" (Some "seed") None None
  = Throw ErrNoInputs.
Proof. vm_compute. reflexivity. Qed.
Lemma prepare_spends_entries_witness :
  ∃ t, "in(wif:seed/0);in(wif:seed/5);addrA:150000000;xpub:seed/0:49950000" = toHex t ∧
    (λ i, (getId (hash i), index i)) <$> tx_ins t = [(txid1, 0); (txid2, 1)].
Proof.
  apply (prepare_spends_entries BTC false [entry1; entry2; sentinel] "1.5" "addrA" (Some "seed")
           None None).
  - vm_compute. reflexivity.
  - repeat constructor.
Defined.
End Examples.
