(* ===== verification/PrepareWf.v ===== *)
(** * What every signed transaction looks like

    Whatever the ledger's [data], amounts and credentials, a raw
    transaction that [prepareSignedOffchainTransaction] returns is the
    serialization of a complete, well-formed transaction.  The three
    phases of the code (the [forEach] of inputs, the two [addOutput]
    calls, the signing loop) are runs of the builder's state machine of
    [TxBuilder], so its invariant [wf] holds of the built transaction.
    Conversely a transaction is returned only if every spendable entry
    got its key: in key-table mode an address missing from the table
    means an exception. *)
From Stdlib Require Import ZArith Lia.
From stdpp Require Import relations.
From S2P Require Import Prelude Amount Chain TxBuilder Offchain.
Local Open Scope Z_scope.

Section PhasesAreSteps.
Context `{ECPairLib} `{Wallet} `{!TxHex}.
Implicit Types (tb : TransactionBuilder) (data : list WRD).

Lemma addOutput_step tb a v tb' :
  addOutput tb a v = Ok tb' →
  step tb tb' ∧ ins tb' = ins tb ∧ length (outs tb') = S (length (outs tb)).
Proof.
  intros Hop. split; [by apply (step_op _ (OpAddOutput a v))|].
  apply addOutput_Ok in Hop as (_ & _ & ? & _ & ->). simpl.
  rewrite length_app. simpl. split; [done|lia].
Qed.

Lemma sign_step tb vin k tb' :
  sign tb vin k = Ok tb' →
  step tb tb' ∧ outs tb' = outs tb ∧ length (ins tb') = length (ins tb).
Proof.
  intros Hop. split; [by apply (step_op _ (OpSign vin k))|].
  apply sign_Ok in Hop as (_ & _ & ? & _ & _ & ->). simpl. by rewrite length_insert.
Qed.

(** The [forEach] of lines 60-64 is a run of [addInput] steps. *)
Lemma addInputs_steps tb data tb' :
  addInputs tb data = Ok tb' → rtc step tb tb' ∧ outs tb' = outs tb.
Proof.
  apply (foldlM_invariant (λ s, rtc step tb s ∧ outs s = outs tb)); [|done].
  intros s d s' _ [Hr Ho] Hf. destruct (is_sentinel d); [by injection Hf as <-|].
  split; [eapply rtc_r; [done|exact (step_op _ (OpAddInput _ _) _ Hf)]|].
  apply addInput_Ok in Hf as (_ & _ & _ & _ & _ & ->). done.
Qed.

(** Lines 67-75 add exactly two outputs, by two [addOutput] steps. *)
Lemma addOutputs_steps c testnet tb data amount address mnemonic keyPair changeAddress tb' :
  addOutputs c testnet tb data amount address mnemonic keyPair changeAddress = Ok tb' →
  rtc step tb tb' ∧ ins tb' = ins tb ∧ length (outs tb') = (length (outs tb) + 2)%nat.
Proof.
  unfold addOutputs. intros Hf. inv_bind.
  destruct (addOutput_step _ _ _ _ Ha) as (Hs1 & Hi1 & Hl1).
  assert (Hlast : ∀ ca v, addOutput a ca v = Ok tb' →
            rtc step tb tb' ∧ ins tb' = ins tb ∧ length (outs tb') = (length (outs tb) + 2)%nat).
  { intros ca v Hop. destruct (addOutput_step _ _ _ _ Hop) as (Hs2 & Hi2 & Hl2).
    split_and!; [eapply rtc_l; [done|by apply rtc_once]|congruence|lia]. }
  destruct (truthy_string mnemonic); [inv_bind; eauto|].
  destruct (truthy_object keyPair), (truthy_string changeAddress); try discriminate. inv_bind. eauto.
Qed.

(** The loop of lines 76-90 is a run of [sign] steps. *)
Lemma signInputs_steps c testnet mnemonic keyPair i tb data tb' :
  signInputs c testnet mnemonic keyPair i tb data = Ok tb' →
  rtc step tb tb' ∧ outs tb' = outs tb ∧ length (ins tb') = length (ins tb).
Proof.
  revert i tb. induction data as [|d data IH]; intros i tb Hs; simpl in Hs.
  { injection Hs as <-. split_and!; [apply rtc_refl|done|done]. }
  inv_bind. destruct (IH _ _ Hs) as (Hr & Ho & Hl).
  destruct (is_sentinel d); [injection Ha as <-; done|]. inv_bind.
  destruct (sign_step _ _ _ _ Ha) as (Hs1 & Ho1 & Hl1).
  split_and!; [by eapply rtc_l|congruence|congruence].
Qed.
End PhasesAreSteps.

Section PrepareOutput.
Context `{ECPairLib} `{Wallet} `{!TxHex}.

(** C14: every raw transaction [prepareSignedOffchainTransaction] returns
    is the serialization of a transaction with one input per non-sentinel
    entry of [data], all with distinct previous outputs and all signed by
    keys of the network, and exactly two outputs, each of a valid
    satoshi value and paying to an address of the network. *)
Theorem prepare_output_wf c testnet data amount address mnemonic keyPair changeAddress hex :
  prepareSignedOffchainTransaction c testnet data amount address mnemonic keyPair changeAddress
    = Ok hex →
  ∃ t, hex = toHex t ∧ tx_ins t ≠ [] ∧
    length (tx_ins t) = length (filter spendable data) ∧ length (tx_outs t) = 2%nat ∧
    NoDup (prevout <$> tx_ins t) ∧
    Forall (λ i, ∃ k, signer i = Some k ∧ ecpair_network k = network_of c testnet) (tx_ins t) ∧
    Forall (λ o, 0 <= value o <= SATOSHI_MAX ∧ isAddress (script o) (network_of c testnet) = true)
      (tx_outs t).
Proof.
  unfold prepareSignedOffchainTransaction. intros Hp. inv_bind. subst hex.
  rename a into tb1, a0 into tb2, a1 into tb3, a2 into t.
  pose proof (addInputs_length _ _ _ Ha) as Hlen.
  destruct (addInputs_steps _ _ _ Ha) as (Hr1 & Ho1).
  destruct (addOutputs_steps _ _ _ _ _ _ _ _ _ _ Ha0) as (Hr2 & Hi2 & Hl2).
  destruct (signInputs_steps _ _ _ _ _ _ _ _ Ha1) as (Hr3 & Ho3 & Hl3).
  destruct (rtc_step_wf (new (network_of c testnet)) tb3) as [[Hnd Hin Hout Hk _] Hn];
    [transitivity tb1; [done|transitivity tb2; done]|apply wf_new|].
  simpl in Hn, Hlen, Ho1. rewrite Hn in Hk, Hout.
  apply build_Ok in Ha2 as (Hne & _ & Hsg & ->). simpl.
  exists {| tx_ins := ins tb3; tx_outs := outs tb3 |}. split_and!; simpl; try done.
  - rewrite Hl3, Hi2, Hlen. lia.
  - rewrite Ho3, Hl2, Ho1. done.
  - eapply List.Forall_impl; [|exact (List.Forall_and Hk Hsg)].
    intros i [Hki Hs]. unfold is_signed in Hs.
    destruct (signer i) as [k|]; [eauto|discriminate].
Qed.

(** A transaction is signed only if every spendable entry got a key. *)
Lemma signInputs_keys c testnet mnemonic keyPair i tb data tb' :
  signInputs c testnet mnemonic keyPair i tb data = Ok tb' →
  ∀ d, d ∈ data → spendable d → ∃ k, input_key c testnet mnemonic keyPair d = Ok k.
Proof.
  revert i tb. induction data as [|d0 data IH]; intros i tb Hs d Hd Hsp;
    [by apply elem_of_nil in Hd|].
  simpl in Hs. inv_bind. apply elem_of_cons in Hd as [->|Hd]; [|by eapply IH].
  unfold spendable in Hsp. rewrite Hsp in Ha. inv_bind. eauto.
Qed.

(** C17: spec section 4.2, table-derived keys: in key-table mode, when
    a spendable entry's address has no entry in the table, no
    transaction is returned: [prepareSignedOffchainTransaction] throws. *)
Theorem prepare_missing_key_throws c testnet data amount address mnemonic kps changeAddress d a :
  truthy_string mnemonic = None → d ∈ data → spendable d →
  WithdrawalResponseData.address d = Some a →
  Forall (λ k, KeyPair.address k ≠ DataAddress.address a) kps →
  ∃ e, prepareSignedOffchainTransaction c testnet data amount address mnemonic (Some kps)
         changeAddress = Throw e.
Proof.
  intros Hm Hd Hsp Ha Hno.
  destruct (prepareSignedOffchainTransaction _ _ _ _ _ _ _ _) as [hex|e] eqn:E; [exfalso|eauto].
  unfold prepareSignedOffchainTransaction in E. inv_bind.
  destruct (signInputs_keys _ _ _ _ _ _ _ _ Ha2 d Hd Hsp) as [k Hk].
  unfold input_key in Hk. rewrite Hm in Hk. inv_bind. simplify_eq.
  match goal with Hf : findKeyPair _ d = Ok (Some ?p) |- _ =>
    rewrite (findKeyPair_address _ _ _ Ha) in Hf; injection Hf as Hf;
    apply List.find_some in Hf as [Hin Hb%bool_decide_eq_true];
    apply List.Forall_forall with (x := p) in Hno; [done|exact Hin]
  end.
Qed.
End PrepareOutput.

Module Examples.
Import ToyChain ToyBuilder ToyEntries.

(** The scenario of spec section 8 with 32-byte txids, in key-table mode. *)
Lemma prepare_output_wf_witness :
  prepareSignedOffchainTransaction BTC false [entry1; sentinel] "1.5" "addrA" None
    (Some [KeyPair.mk "a1" "wif:a1"]) (Some "change")
    = Ok "in(wif:a1);addrA:150000000;change:49950000" ∧
  ∃ t, "in(wif:a1);addrA:150000000;change:49950000" = toHex t ∧ tx_ins t ≠ [] ∧
    length (tx_ins t) = length (filter spendable [entry1; sentinel]) ∧
    length (tx_outs t) = 2%nat ∧ NoDup (prevout <$> tx_ins t) ∧
    Forall (λ i, ∃ k, signer i = Some k ∧ ecpair_network k = network_of BTC false) (tx_ins t) ∧
    Forall (λ o, 0 <= value o <= SATOSHI_MAX ∧ isAddress (script o) (network_of BTC false) = true)
      (tx_outs t).
Proof.
  assert (Hp : prepareSignedOffchainTransaction BTC false [entry1; sentinel] "1.5" "addrA" None
                 (Some [KeyPair.mk "a1" "wif:a1"]) (Some "change")
               = Ok "in(wif:a1);addrA:150000000;change:49950000") by (vm_compute; reflexivity).
  split; [exact Hp|]. exact (prepare_output_wf _ _ _ _ _ _ _ _ _ Hp).
Defined.

Lemma prepare_missing_key_throws_witness :
  ∃ e, prepareSignedOffchainTransaction BTC false [entry1; sentinel] "1.5" "addrA" None
         (Some [KeyPair.mk "a2" "wif:a2"]) (Some "change") = Throw e.
Proof.
  apply (prepare_missing_key_throws BTC false [entry1; sentinel] "1.5" "addrA" None
           [KeyPair.mk "a2" "wif:a2"] (Some "change") entry1 (DataAddress.mk "a1" 0));
    [reflexivity|by left|reflexivity|reflexivity|].
  repeat constructor. simpl. discriminate.
Defined.

(** Finding, on a concrete run: an empty key table passes the credentials check of line 71
    ([keyPair && changeAddress]: an array is truthy even when empty), and
    the call fails later, at line 87, reading [privateKey.private] of the
    key that [find] did not find. *)
Example prepare_empty_keytable :
  prepareSignedOffchainTransaction BTC false [entry1; sentinel] "1.5" "addrA" None
    (Some []) (Some "change") = Throw ErrPrivateKeyUndefined.
Proof. vm_compute. reflexivity. Qed.

(** Finding, on a concrete run: an input without address metadata is signed in mnemonic mode,
    with the key at derivation index 0, but in key-table mode the lookup
    of line 86 reads [input.address.address] and throws. *)
Example prepare_table_input_without_address :
  let bare := WithdrawalResponseData.mk txid1 0 "2.0" None in
  prepareSignedOffchainTransaction BTC false [bare; sentinel] "1.5" "addrA" None
    (Some [KeyPair.mk "a1" "wif:a1"]) (Some "change") = Throw ErrInputAddressUndefined ∧
  prepareSignedOffchainTransaction BTC false [bare; sentinel] "1.5" "addrA" (Some "seed")
    None None = Ok "in(wif:seed/0);addrA:150000000;xpub:seed/0:49950000".
Proof. vm_compute. split; reflexivity. Qed.
End Examples.
