(* ===== verification/Withdrawal.v ===== *)
(** * The withdrawal orchestrator

    [sendBitcoinOffchainTransaction] (src/src/offchain/bitcoin.ts, lines
    15-42) and [sendLitecoinOffchainTransaction] (src/offchain/litecoin.ts,
    lines 9-36): validate the request, default the fee, store the
    withdrawal in the ledger, build and sign the transaction, broadcast it,
    and cancel the stored withdrawal when building or broadcasting throws.
    The ledger endpoints of ./common ([offchainStoreWithdrawal],
    [offchainCancelWithdrawal], [offchainBroadcast]) are the class [Ledger]:
    each call takes the ledger's state to a new one and may throw.  The
    orchestrator runs in the monad [M]: the ledger's state is threaded,
    every call made is recorded in order, and exceptions propagate unless
    caught. *)
From Stdlib Require Import ZArith.
From stdpp Require Import pretty.
From S2P Require Import Prelude Amount Chain TxBuilder Offchain.
Set Warnings "-clear-no-such-hyp".

(** [TransferBtcBasedOffchain] of ../model: the fields the code reads. *)
Module TransferBtcBasedOffchain.
Record t : Type := mk {
  senderAccountId : string;
  address : string;
  amount : string;
  fee : option string;
  mnemonic : option string;
  keyPair : option (list KeyPair.t);
  attr : option string;
}.
End TransferBtcBasedOffchain.

(** The object [...withdrawal] of lines 17-19: the request without its
    credentials. *)
Module Withdrawal.
Record t : Type := mk {
  senderAccountId : string;
  address : string;
  amount : string;
  fee : option string;
}.
End Withdrawal.

(** The argument of [offchainBroadcast]. *)
Module BroadcastWithdrawal.
Record t : Type := mk { txData : string; withdrawalId : string; currency : Currency }.
End BroadcastWithdrawal.

(** The ledger's endpoints, on a ledger state. *)
Class Ledger : Type := {
  ledger_state : Type;
  offchainStoreWithdrawal :
    ledger_state → Withdrawal.t → ledger_state * result (string * list WRD);
  offchainCancelWithdrawal : ledger_state → string → ledger_state * result unit;
  offchainBroadcast : ledger_state → BroadcastWithdrawal.t → ledger_state * result string;
}.

(** class-validator's [validateOrReject] on the request: accepts or
    rejects it. *)
Class Validator : Type := {
  validateOrReject : TransferBtcBasedOffchain.t → bool;
}.

(** A ledger call with its answer, as recorded in a run. *)
Inductive call : Type :=
  | CallStore (w : Withdrawal.t) (r : result (string * list WRD))
  | CallCancel (id : string) (r : result unit)
  | CallBroadcast (b : BroadcastWithdrawal.t) (r : result string).

Section Orchestrator.
Context `{ECPairLib} `{Wallet} `{!TxHex} `{Ledger} `{Validator}.

(** The monad: from a ledger state, the final state, the calls made and
    the result. *)
Definition M (A : Type) : Type := ledger_state → ledger_state * list call * result A.

#[local] Instance M_ret : MRet M := λ A a σ, (σ, [], Ok a).
#[local] Instance M_bind : MBind M := λ A B k m σ,
  match m σ with
  | (σ1, c1, Ok a) => let '(σ2, c2, r) := k a σ1 in (σ2, c1 ++ c2, r)
  | (σ1, c1, Throw e) => (σ1, c1, Throw e)
  end.

Definition throwM {A} (e : js_error) : M A := λ σ, (σ, [], Throw e).

(** A pure computation that may throw, run in [M]. *)
Definition liftM {A} (r : result A) : M A := λ σ, (σ, [], r).

(** [try { m } catch (e) { h(e) }] *)
Definition catchM {A} (m : M A) (h : js_error → M A) : M A := λ σ,
  match m σ with
  | (σ1, c1, Ok a) => (σ1, c1, Ok a)
  | (σ1, c1, Throw e) => let '(σ2, c2, r) := h e σ1 in (σ2, c1 ++ c2, r)
  end.

Definition store (w : Withdrawal.t) : M (string * list WRD) := λ σ,
  let '(σ', r) := offchainStoreWithdrawal σ w in (σ', [CallStore w r], r).

Definition cancel (id : string) : M unit := λ σ,
  let '(σ', r) := offchainCancelWithdrawal σ id in (σ', [CallCancel id r], r).

Definition broadcast (b : BroadcastWithdrawal.t) : M string := λ σ,
  let '(σ', r) := offchainBroadcast σ b in (σ', [CallBroadcast b r], r).

(** Lines 17-22: the request without [mnemonic], [keyPair] and [attr],
    with the fee defaulted when it is absent or empty. *)
Definition withdrawal_of (body : TransferBtcBasedOffchain.t) : Withdrawal.t :=
  {| Withdrawal.senderAccountId := TransferBtcBasedOffchain.senderAccountId body;
     Withdrawal.address := TransferBtcBasedOffchain.address body;
     Withdrawal.amount := TransferBtcBasedOffchain.amount body;
     Withdrawal.fee :=
       match truthy_string (TransferBtcBasedOffchain.fee body) with
       | Some f => Some f
       | None => Some "0.0005"
       end |}.

(** The compensation of lines 30-33 and 37-40: cancel, then rethrow. *)
Definition compensate {A} (id : string) (e : js_error) : M A :=
  _ ← cancel id; throwM e.

(** The per-currency build: bitcoin.ts line 29, litecoin.ts line 23. *)
Definition prepare_of (c : Currency) (testnet : bool) (id : string) (data : list WRD)
    (amount address : string) (mnemonic : option string)
    (keyPair : option (list KeyPair.t)) (changeAddress : option string) : result string :=
  match c with
  | BTC => prepareBitcoinSignedOffchainTransaction testnet data amount address mnemonic
             keyPair changeAddress
  | LTC => prepareLitecoinSignedOffchainTransaction testnet id data amount address mnemonic
             keyPair changeAddress
  end.

Definition sendOffchainTransaction (c : Currency) (testnet : bool)
    (body : TransferBtcBasedOffchain.t) : M string :=
  if negb (validateOrReject body) then throwM ErrValidation else
  let withdrawal := withdrawal_of body in
  '(id, data) ← store withdrawal;
  txData ← catchM
    (liftM (prepare_of c testnet id data (Withdrawal.amount withdrawal) (Withdrawal.address withdrawal)
              (TransferBtcBasedOffchain.mnemonic body) (TransferBtcBasedOffchain.keyPair body)
              (TransferBtcBasedOffchain.attr body)))
    (compensate id);
  catchM
    (broadcast {| BroadcastWithdrawal.txData := txData;
                  BroadcastWithdrawal.withdrawalId := id;
                  BroadcastWithdrawal.currency := c |})
    (compensate id).

(** bitcoin.ts lines 15-42 *)
Definition sendBitcoinOffchainTransaction (testnet : bool) (body : TransferBtcBasedOffchain.t)
    : M string :=
  sendOffchainTransaction BTC testnet body.

(** litecoin.ts lines 9-36 *)
Definition sendLitecoinOffchainTransaction (testnet : bool) (body : TransferBtcBasedOffchain.t)
    : M string :=
  sendOffchainTransaction LTC testnet body.
End Orchestrator.

(** ** The contract of spec section 4.4, and the orchestrator's runs *)

(** The error the caller sees after a compensation: the original one when
    the cancellation succeeds, the cancellation's own otherwise. *)
Definition compensated (e : js_error) (rc : result unit) : js_error :=
  match rc with Ok _ => e | Throw e' => e' end.

(** The runs spec section 4.4 allows, for a request that validation
    accepts or not, the withdrawal it stores and the build it performs:
    nothing before validation; one store; on a failed build one
    cancellation of the stored id; otherwise one broadcast of the built
    transaction under the stored id, compensated by one cancellation when
    it fails; no retries. *)
Inductive spec_run (c : Currency) (valid : bool) (w : Withdrawal.t)
    (build : string → list WRD → result string) : list call → result string → Prop :=
  | spec_rejected :
      valid = false → spec_run c valid w build [] (Throw ErrValidation)
  | spec_store_failed e :
      valid = true → spec_run c valid w build [CallStore w (Throw e)] (Throw e)
  | spec_build_failed id data e rc :
      valid = true → build id data = Throw e →
      spec_run c valid w build [CallStore w (Ok (id, data)); CallCancel id rc]
        (Throw (compensated e rc))
  | spec_broadcast_failed id data tx e rc :
      valid = true → build id data = Ok tx →
      spec_run c valid w build
        [CallStore w (Ok (id, data)); CallBroadcast (BroadcastWithdrawal.mk tx id c) (Throw e);
         CallCancel id rc]
        (Throw (compensated e rc))
  | spec_sent id data tx txid :
      valid = true → build id data = Ok tx →
      spec_run c valid w build
        [CallStore w (Ok (id, data)); CallBroadcast (BroadcastWithdrawal.mk tx id c) (Ok txid)]
        (Ok txid).

Definition is_cancel (x : call) : bool := match x with CallCancel _ _ => true | _ => false end.
Definition is_store (x : call) : bool := match x with CallStore _ _ => true | _ => false end.
Definition is_broadcast (x : call) : bool := match x with CallBroadcast _ _ => true | _ => false end.

Section OrchestratorSpec.
Context `{ECPairLib} `{Wallet} `{!TxHex} `{Ledger} `{Validator}.

Lemma prepare_of_eq c testnet id data amount address mnemonic keyPair changeAddress :
  prepare_of c testnet id data amount address mnemonic keyPair changeAddress
  = prepareSignedOffchainTransaction c testnet data amount address mnemonic keyPair changeAddress.
Proof. by destruct c. Qed.

(** The build [sendOffchainTransaction] performs for a stored id and data. *)
Definition build_of (c : Currency) (testnet : bool) (body : TransferBtcBasedOffchain.t)
    (id : string) (data : list WRD) : result string :=
  prepareSignedOffchainTransaction c testnet data (TransferBtcBasedOffchain.amount body)
    (TransferBtcBasedOffchain.address body) (TransferBtcBasedOffchain.mnemonic body)
    (TransferBtcBasedOffchain.keyPair body) (TransferBtcBasedOffchain.attr body).

Lemma send_run_spec c testnet body σ :
  let '(_, calls, r) := sendOffchainTransaction c testnet body σ in
  spec_run c (validateOrReject body) (withdrawal_of body) (build_of c testnet body) calls r.
Proof.
  unfold sendOffchainTransaction.
  destruct (validateOrReject body) eqn:Hv; simpl; [|by constructor].
  unfold compensate, mbind, M_bind, store, catchM, liftM, cancel, broadcast, throwM.
  destruct (offchainStoreWithdrawal σ (withdrawal_of body)) as [σ1 [[id data]|e]]; simpl;
    [|by constructor].
  rewrite prepare_of_eq.
  destruct (prepareSignedOffchainTransaction _ _ _ _ _ _ _ _) as [tx|e] eqn:Hb; simpl.
  - destruct (offchainBroadcast σ1 _) as [σ2 [txid|e]]; simpl; [by eapply spec_sent|].
    destruct (offchainCancelWithdrawal σ2 id) as [σ3 [[]|e']]; simpl.
    + by eapply (spec_broadcast_failed _ _ _ _ _ _ _ _ (Ok ())).
    + by eapply (spec_broadcast_failed _ _ _ _ _ _ _ _ (Throw e')).
  - destruct (offchainCancelWithdrawal σ1 id) as [σ2 [[]|e']]; simpl.
    + by eapply (spec_build_failed _ _ _ _ _ _ _ (Ok ())).
    + by eapply (spec_build_failed _ _ _ _ _ _ _ (Throw e')).
Qed.

(** C3: refinement.  Every run of the orchestrator, from any ledger state
    and whatever the ledger answers, is a run the contract of spec section
    4.4 allows, for the withdrawal without credentials and with the
    defaulted fee. *)
Theorem send_refines_spec c testnet body σ :
  let '(_, calls, r) := sendOffchainTransaction c testnet body σ in
  spec_run c (validateOrReject body) (withdrawal_of body) (build_of c testnet body) calls r.
Proof. apply send_run_spec. Qed.
End OrchestratorSpec.

Section OrchestratorBranches.
Context `{ECPairLib} `{Wallet} `{!TxHex} `{Ledger} `{Validator}.

Local Ltac run_send :=
  unfold sendOffchainTransaction, compensate, mbind, M_bind, store, catchM, liftM, cancel,
    broadcast, throwM.

(** C12: a request that validation rejects makes no ledger call and
    leaves the ledger as it was. *)
Theorem send_validation_rejected c testnet body σ :
  validateOrReject body = false →
  sendOffchainTransaction c testnet body σ = (σ, [], Throw ErrValidation).
Proof. intros Hv. unfold sendOffchainTransaction. by rewrite Hv. Qed.

(** C4: when the build throws after the withdrawal is stored, the stored
    id is cancelled, once, and the caller sees the build's error when the
    cancellation succeeds; when the cancellation itself throws, its error
    replaces the build's. *)
Theorem send_build_failure_compensates c testnet body σ σ1 σ2 id data e rc :
  validateOrReject body = true →
  offchainStoreWithdrawal σ (withdrawal_of body) = (σ1, Ok (id, data)) →
  build_of c testnet body id data = Throw e →
  offchainCancelWithdrawal σ1 id = (σ2, rc) →
  sendOffchainTransaction c testnet body σ
  = (σ2, [CallStore (withdrawal_of body) (Ok (id, data)); CallCancel id rc],
     Throw (compensated e rc)).
Proof.
  intros Hv Hs Hb Hc. unfold build_of in Hb. run_send.
  rewrite Hv. cbn [negb]. rewrite Hs. cbv iota beta. rewrite prepare_of_eq.
  change (Withdrawal.amount (withdrawal_of body)) with (TransferBtcBasedOffchain.amount body).
  change (Withdrawal.address (withdrawal_of body)) with (TransferBtcBasedOffchain.address body).
  rewrite Hb.
  cbv iota beta. rewrite Hc. by destruct rc.
Qed.

(** C5: when the broadcast throws, the stored id is cancelled, once,
    after the broadcast, with the same choice of error. *)
Theorem send_broadcast_failure_compensates c testnet body σ σ1 σ2 σ3 id data tx e rc :
  validateOrReject body = true →
  offchainStoreWithdrawal σ (withdrawal_of body) = (σ1, Ok (id, data)) →
  build_of c testnet body id data = Ok tx →
  offchainBroadcast σ1 (BroadcastWithdrawal.mk tx id c) = (σ2, Throw e) →
  offchainCancelWithdrawal σ2 id = (σ3, rc) →
  sendOffchainTransaction c testnet body σ
  = (σ3, [CallStore (withdrawal_of body) (Ok (id, data));
          CallBroadcast (BroadcastWithdrawal.mk tx id c) (Throw e); CallCancel id rc],
     Throw (compensated e rc)).
Proof.
  intros Hv Hs Hb Hbr Hc. unfold build_of in Hb. run_send.
  rewrite Hv. cbn [negb]. rewrite Hs. cbv iota beta. rewrite prepare_of_eq.
  change (Withdrawal.amount (withdrawal_of body)) with (TransferBtcBasedOffchain.amount body).
  change (Withdrawal.address (withdrawal_of body)) with (TransferBtcBasedOffchain.address body).
  rewrite Hb.
  cbv iota beta. rewrite Hbr. cbv iota beta. rewrite Hc. by destruct rc.
Qed.

Definition count_calls (f : call → bool) (calls : list call) : nat := length (List.filter f calls).

Lemma spec_run_once c valid w build calls r :
  spec_run c valid w build calls r →
  (count_calls is_store calls <= 1 ∧ count_calls is_cancel calls <= 1 ∧
   count_calls is_broadcast calls <= 1)%nat ∧
  (∀ id rc, CallCancel id rc ∈ calls → ∃ data, CallStore w (Ok (id, data)) ∈ calls) ∧
  (∀ b rb, CallBroadcast b rb ∈ calls →
     ∃ data, CallStore w (Ok (BroadcastWithdrawal.withdrawalId b, data)) ∈ calls ∧
             build (BroadcastWithdrawal.withdrawalId b) data = Ok (BroadcastWithdrawal.txData b)).
Proof.
  destruct 1; unfold count_calls; simpl; (split; [lia|]);
    setoid_rewrite list_elem_of_In; simpl; split; intros; naive_solver.
Qed.

(** C6: no retries.  A run stores the withdrawal at most once,
    broadcasts at most once and cancels at most once; it cancels only an id
    the store returned, and broadcasts only under the stored id the
    transaction built from the stored data. *)
Theorem send_at_most_once c testnet body σ :
  let '(_, calls, _) := sendOffchainTransaction c testnet body σ in
  (count_calls is_store calls <= 1 ∧ count_calls is_cancel calls <= 1 ∧
   count_calls is_broadcast calls <= 1)%nat ∧
  (∀ id rc, CallCancel id rc ∈ calls →
     ∃ data, CallStore (withdrawal_of body) (Ok (id, data)) ∈ calls) ∧
  (∀ b rb, CallBroadcast b rb ∈ calls →
     ∃ data, CallStore (withdrawal_of body) (Ok (BroadcastWithdrawal.withdrawalId b, data)) ∈ calls ∧
       build_of c testnet body (BroadcastWithdrawal.withdrawalId b) data
       = Ok (BroadcastWithdrawal.txData b)).
Proof.
  pose proof (send_run_spec c testnet body σ) as Hr.
  destruct (sendOffchainTransaction c testnet body σ) as [[σ' calls] r].
  by apply spec_run_once in Hr.
Qed.
End OrchestratorBranches.

(** ** Witnesses, on a ledger whose state counts the stored withdrawals *)
Module Examples.
Import ToyChain ToyBuilder ToyEntries.

Definition toy_ledger (inputs : list WRD) (broadcast_ok cancel_ok : bool) : Ledger := {|
  ledger_state := nat;
  offchainStoreWithdrawal n w := (S n, Ok (("w" ++ pretty n)%string, inputs));
  offchainCancelWithdrawal n id :=
    (n, if cancel_ok then Ok () else Throw (ErrLedger "cancel failed"));
  offchainBroadcast n b :=
    (n, if broadcast_ok then Ok "txid" else Throw (ErrLedger "broadcast failed"));
|}.

Definition toy_validator : Validator := {|
  validateOrReject b := negb (bool_decide (TransferBtcBasedOffchain.amount b = ""));
|}.

Definition request (amount : string) (mnemonic attr : option string)
    (keyPair : option (list KeyPair.t)) : TransferBtcBasedOffchain.t :=
  TransferBtcBasedOffchain.mk "acc" "addrA" amount None mnemonic keyPair attr.

Lemma send_validation_rejected_witness :
  @sendOffchainTransaction _ _ _ (toy_ledger [entry1; sentinel] true true) toy_validator
    BTC false (request "" (Some "seed") None None) 0
  = (0%nat, [], Throw ErrValidation).
Proof. apply (send_validation_rejected (H2 := toy_ledger _ _ _) (H3 := toy_validator)). reflexivity. Defined.

Lemma send_build_failure_compensates_witness :
  @sendOffchainTransaction _ _ _ (toy_ledger [entry1; sentinel] true true) toy_validator
    BTC false (request "1.5" None None None) 0
  = (1%nat, [CallStore (withdrawal_of (request "1.5" None None None))
               (Ok ("w0"%string, [entry1; sentinel]));
             CallCancel "w0" (Ok ())],
     Throw (compensated ErrCredentials (Ok ()))).
Proof.
  apply (send_build_failure_compensates (H2 := toy_ledger _ _ _) (H3 := toy_validator)
           BTC false (request "1.5" None None None) 0 1 1 "w0" [entry1; sentinel]
           ErrCredentials (Ok ())); vm_compute; reflexivity.
Defined.

Lemma send_broadcast_failure_compensates_witness :
  @sendOffchainTransaction _ _ _ (toy_ledger [entry1; sentinel] false true) toy_validator
    BTC false (request "1.5" (Some "seed") None None) 0
  = (1%nat, [CallStore (withdrawal_of (request "1.5" (Some "seed") None None))
               (Ok ("w0"%string, [entry1; sentinel]));
             CallBroadcast (BroadcastWithdrawal.mk
                              "in(wif:seed/0);addrA:150000000;xpub:seed/0:49950000" "w0" BTC)
               (Throw (ErrLedger "broadcast failed"));
             CallCancel "w0" (Ok ())],
     Throw (compensated (ErrLedger "broadcast failed") (Ok ()))).
Proof.
  apply (send_broadcast_failure_compensates (H2 := toy_ledger _ _ _) (H3 := toy_validator)
           BTC false (request "1.5" (Some "seed") None None) 0 1 1 1 "w0" [entry1; sentinel]
           "in(wif:seed/0);addrA:150000000;xpub:seed/0:49950000" (ErrLedger "broadcast failed")
           (Ok ())); vm_compute; reflexivity.
Defined.

(** Finding, on a concrete run: spec section 7 says the caller observes the original error; when
    [offchainCancelWithdrawal] itself throws, the caller observes the
    cancellation's error instead, and the build's error is lost. *)
Example send_cancel_error_replaces :
  (@sendOffchainTransaction _ _ _ (toy_ledger [entry1; sentinel] true false) toy_validator
     BTC false (request "1.5" None None None) 0).2
  = Throw (ErrLedger "cancel failed").
Proof. vm_compute. reflexivity. Qed.
End Examples.
