(* ===== verification/RefLedger.v ===== *)
(** * A reference ledger, and the orchestrator run against it

    The ledger endpoints of ./common are not in the repository: spec
    section 6 gives their contract.  [store] records the withdrawal under a
    fresh identifier and returns the inputs the ledger selected for it;
    [cancel] is best effort and idempotent: it cancels a pending
    withdrawal, accepts an already cancelled one, and refuses only one
    that was broadcast; [broadcast] hands a pending withdrawal's raw
    transaction to the network and records its txid.  The book of
    withdrawals is a [gmap] from identifiers to entries, identifiers are
    the decimal strings of a counter.  The ledger's choice of inputs
    ([select]) and the network's answer to a raw transaction ([submit])
    are parameters: every theorem holds for all of them.

    Against this ledger the orchestrator of [Withdrawal] is one function
    of the ledger's state, [ref_outcome], and over any sequence of
    requests no withdrawal is left pending.  Composed with the build of [Offchain], a
    well-formed request ends with its signed transaction handed to the
    network and its withdrawal recorded as broadcast or cancelled. *)
From Stdlib Require Import ZArith NArith.
From stdpp Require Import relations gmap strings pretty.
From S2P Require Import Prelude Amount Chain TxBuilder Offchain Withdrawal.

(** The status of a stored withdrawal. *)
Inductive wstatus : Type :=
  | WStored
  | WCancelled
  | WBroadcast (txData txid : string).

Record entry : Type := mk_entry {
  e_withdrawal : Withdrawal.t;
  e_data : list WRD;
  e_status : wstatus;
}.

Record ref_state : Type := mk_state {
  next_id : N;
  book : gmap string entry;
}.

Definition ref_init : ref_state := mk_state 0 ∅.

Definition set_status (σ : ref_state) (id : string) (e : entry) (s : wstatus) : ref_state :=
  mk_state (next_id σ) (<[id := mk_entry (e_withdrawal e) (e_data e) s]> (book σ)).

Section RefLedger.
Context (select : Withdrawal.t → option (list WRD)) (submit : string → option string).

Definition ref_store (σ : ref_state) (w : Withdrawal.t) : ref_state * result (string * list WRD) :=
  match select w with
  | None => (σ, Throw (ErrLedger "withdrawal refused"))
  | Some data =>
      let id := pretty (next_id σ) in
      (mk_state (N.succ (next_id σ)) (<[id := mk_entry w data WStored]> (book σ)), Ok (id, data))
  end.

Definition ref_cancel (σ : ref_state) (id : string) : ref_state * result unit :=
  match book σ !! id with
  | None => (σ, Throw (ErrLedger "withdrawal not found"))
  | Some e =>
      match e_status e with
      | WStored => (set_status σ id e WCancelled, Ok ())
      | WCancelled => (σ, Ok ())
      | WBroadcast _ _ => (σ, Throw (ErrLedger "withdrawal already broadcast"))
      end
  end.

Definition ref_broadcast (σ : ref_state) (b : BroadcastWithdrawal.t) : ref_state * result string :=
  let id := BroadcastWithdrawal.withdrawalId b in
  match book σ !! id with
  | None => (σ, Throw (ErrLedger "withdrawal not found"))
  | Some e =>
      match e_status e with
      | WStored =>
          match submit (BroadcastWithdrawal.txData b) with
          | Some txid => (set_status σ id e (WBroadcast (BroadcastWithdrawal.txData b) txid), Ok txid)
          | None => (σ, Throw (ErrLedger "transaction rejected"))
          end
      | _ => (σ, Throw (ErrLedger "withdrawal not pending"))
      end
  end.

#[local] Instance ref_ledger : Ledger := {|
  ledger_state := ref_state;
  offchainStoreWithdrawal := ref_store;
  offchainCancelWithdrawal := ref_cancel;
  offchainBroadcast := ref_broadcast;
|}.

Context `{ECPairLib} `{Wallet} `{!TxHex} `{Validator}.

(** What a request does to this ledger, in one piece: the contract of
    spec sections 4.4, 6 and 7 together. *)
Definition ref_outcome (c : Currency) (testnet : bool) (body : TransferBtcBasedOffchain.t)
    (σ : ref_state) : ref_state * result string :=
  if negb (validateOrReject body) then (σ, Throw ErrValidation) else
  let w := withdrawal_of body in
  match select w with
  | None => (σ, Throw (ErrLedger "withdrawal refused"))
  | Some data =>
      let id := pretty (next_id σ) in
      let σ' s := mk_state (N.succ (next_id σ)) (<[id := mk_entry w data s]> (book σ)) in
      match build_of c testnet body id data with
      | Throw e => (σ' WCancelled, Throw e)
      | Ok tx =>
          match submit tx with
          | Some txid => (σ' (WBroadcast tx txid), Ok txid)
          | None => (σ' WCancelled, Throw (ErrLedger "transaction rejected"))
          end
      end
  end.

(** One request, processed from start to end. *)
Inductive ledger_run : ref_state → ref_state → Prop :=
  | run_request c testnet body σ :
      ledger_run σ (sendOffchainTransaction c testnet body σ).1.1.

(** Every identifier from [next_id] on is still unused. *)
Definition ref_inv (σ : ref_state) : Prop := ∀ n, (next_id σ <= n)%N → book σ !! pretty n = None.

(** No withdrawal is left pending. *)
Definition settled (σ : ref_state) : Prop := ∀ id e, book σ !! id = Some e → e_status e ≠ WStored.

Lemma ref_send_outcome c testnet body σ :
  let '(σ', _, r) := sendOffchainTransaction c testnet body σ in (σ', r) = ref_outcome c testnet body σ.
Proof.
  unfold sendOffchainTransaction, ref_outcome.
  destruct (validateOrReject body); cbn [negb]; [|done].
  unfold compensate, mbind, M_bind, store, catchM, liftM, cancel, broadcast, throwM.
  cbn [offchainStoreWithdrawal offchainCancelWithdrawal offchainBroadcast ref_ledger].
  unfold ref_store. destruct (select (withdrawal_of body)) as [data|]; [|done].
  cbv iota beta. rewrite prepare_of_eq.
  change (Withdrawal.amount (withdrawal_of body)) with (TransferBtcBasedOffchain.amount body).
  change (Withdrawal.address (withdrawal_of body)) with (TransferBtcBasedOffchain.address body).
  unfold build_of.
  destruct (prepareSignedOffchainTransaction _ _ _ _ _ _ _ _) as [tx|e]; cbv iota beta;
    [unfold ref_broadcast; cbn [BroadcastWithdrawal.withdrawalId BroadcastWithdrawal.txData book];
     rewrite lookup_insert_eq; cbn [e_status]; destruct (submit tx); cbv iota beta|];
    try (unfold ref_cancel; cbn [book]; rewrite lookup_insert_eq; cbn [e_status]; cbv iota beta);
    unfold set_status; cbn [next_id book e_withdrawal e_data]; by rewrite insert_insert_eq.
Qed.

Lemma ref_outcome_state c testnet body σ :
  (ref_outcome c testnet body σ).1 = σ ∨
  ∃ data s, s ≠ WStored ∧
    (ref_outcome c testnet body σ).1
    = mk_state (N.succ (next_id σ)) (<[pretty (next_id σ) := mk_entry (withdrawal_of body) data s]> (book σ)).
Proof.
  unfold ref_outcome. destruct (validateOrReject body); [|by left]. cbn [negb].
  destruct (select _) as [data|]; [|by left]. right. exists data.
  destruct (build_of _ _ _ _ _); [destruct (submit _)|]; eexists; (split; [|reflexivity]); discriminate.
Qed.

(** One request keeps identifiers fresh, keeps every other record, and
    leaves its own record cancelled or broadcast. *)
Lemma outcome_preserves c testnet body σ :
  ref_inv σ →
  ref_inv (ref_outcome c testnet body σ).1 ∧
  (settled σ → settled (ref_outcome c testnet body σ).1) ∧
  book σ ⊆ book (ref_outcome c testnet body σ).1.
Proof.
  intros Hinv. destruct (ref_outcome_state c testnet body σ) as [->|(data & s & Hs & ->)]; [done|].
  unfold ref_inv, settled. split_and!; cbn [book next_id].
  - intros n Hn. rewrite lookup_insert_ne; [apply Hinv; lia|].
    intros E%(inj pretty). lia.
  - intros Hset id e. destruct (decide (pretty (next_id σ) = id)) as [<-|Hne].
    + rewrite lookup_insert_eq. by intros [= <-].
    + rewrite lookup_insert_ne by done. apply Hset.
  - apply insert_subseteq. apply Hinv. lia.
Qed.

Lemma run_outcome σ σ' : ledger_run σ σ' → ∃ c testnet body, σ' = (ref_outcome c testnet body σ).1.
Proof.
  intros [c testnet body σ0]. exists c, testnet, body.
  pose proof (ref_send_outcome c testnet body σ0) as E.
  destruct (@sendOffchainTransaction _ _ _ ref_ledger _ c testnet body σ0) as [[σ1 calls] r].
  by rewrite <- E.
Qed.

Lemma runs_preserve σ σ' :
  rtc ledger_run σ σ' → ref_inv σ →
  ref_inv σ' ∧ (settled σ → settled σ') ∧ book σ ⊆ book σ'.
Proof.
  intros Hr Hinv. revert σ' Hr.
  apply (rtc_ind_r (λ σ', ref_inv σ' ∧ (settled σ → settled σ') ∧ book σ ⊆ book σ')); [done|].
  intros σ1 σ2 _ (c & testnet & body & ->)%run_outcome (Hi1 & Hs1 & Hb1).
  destruct (outcome_preserves c testnet body σ1 Hi1) as (Hi2 & Hs2 & Hb2).
  split_and!; [done|auto|by transitivity (book σ1)].
Qed.

Lemma ref_init_inv : ref_inv ref_init ∧ settled ref_init.
Proof. unfold ref_inv, settled. split; [intros n _|intros id e]; simpl; by rewrite lookup_empty. Qed.

(** C15: refinement.  Run against a ledger that honours spec section 6,
    the orchestrator is the function [ref_outcome]: a rejected request or
    a refused store leaves the ledger as it was; otherwise the
    withdrawal is recorded under a fresh identifier, broadcast when the
    build and the network succeed, cancelled otherwise, and the caller
    sees the original error of the build or of the network. *)
Theorem ref_send_refines c testnet body σ :
  let '(σ', _, r) := sendOffchainTransaction c testnet body σ in (σ', r) = ref_outcome c testnet body σ.
Proof. apply ref_send_outcome. Qed.

(** C16: invariant.  After any sequence of requests, processed one after
    the other from the empty ledger, identifiers are still fresh and no
    withdrawal is left pending: each one is broadcast or cancelled. *)
Theorem ref_runs_settled σ : rtc ledger_run ref_init σ → ref_inv σ ∧ settled σ.
Proof.
  intros Hr. destruct ref_init_inv as [Hi Hs].
  destruct (runs_preserve _ _ Hr Hi) as (Hi' & Hs' & _). auto.
Qed.

(** C21: composition, from a request to the network.  A request that
    validation accepts, for which the ledger selects valid, distinct
    spendable entries followed by the sentinel entries, with a valid
    amount and address, credentials that give a change address and a key
    for every spendable entry, is built into the transaction that spends
    those entries, each signed with its key, and pays the amount to the
    address and the sentinel's amount to the change address; that raw
    transaction is what the network receives.  When the network accepts
    it, the caller gets the network's txid and the withdrawal is recorded
    as broadcast with that transaction; when the network refuses it, the
    withdrawal is recorded as cancelled and the caller sees the network's
    refusal. *)
Theorem ref_send_end_to_end c testnet body σ spend lv sent change v1 v2 :
  let mnemonic := TransferBtcBasedOffchain.mnemonic body in
  let keyPair := TransferBtcBasedOffchain.keyPair body in
  let address := TransferBtcBasedOffchain.address body in
  validateOrReject body = true →
  select (withdrawal_of body) = Some (spend ++ lv :: sent) →
  spend ≠ [] →
  Forall (λ d, spendable d ∧ valid_input d) spend →
  NoDup (data_prevout <$> spend) →
  Forall (λ d, is_sentinel d = true) (lv :: sent) →
  Satoshi (toBaseUnits (TransferBtcBasedOffchain.amount body)) = Some v1 →
  Satoshi (toBaseUnits (WithdrawalResponseData.amount lv)) = Some v2 →
  change_address c testnet mnemonic keyPair (TransferBtcBasedOffchain.attr body) = Some change →
  isAddress address (network_of c testnet) = true →
  isAddress change (network_of c testnet) = true →
  Forall (λ d, ∃ k, input_key c testnet mnemonic keyPair d = Ok k) spend →
  ∃ ks, Forall2 (λ d k, input_key c testnet mnemonic keyPair d = Ok k) spend ks ∧
    let hex := toHex {| tx_ins := zip_with signed_input spend ks;
                        tx_outs := [{| script := address; value := v1 |};
                                    {| script := change; value := v2 |}] |} in
    let recorded s := mk_state (N.succ (next_id σ))
      (<[pretty (next_id σ) := mk_entry (withdrawal_of body) (spend ++ lv :: sent) s]> (book σ)) in
    let '(σ', _, r) := sendOffchainTransaction c testnet body σ in
    match submit hex with
    | Some txid => σ' = recorded (WBroadcast hex txid) ∧ r = Ok txid
    | None => σ' = recorded WCancelled ∧ r = Throw (ErrLedger "transaction rejected")
    end.
Proof.
  cbv zeta. intros Hv Hsel Hne Hsp Hnd Hs Hv1 Hv2 Hch Ha Hc Hk.
  destruct (prepare_signs_inputs_spec c testnet spend lv sent _ _ _ _ _ change v1 v2
              Hne Hsp Hnd Hs Hv1 Hv2 Hch Ha Hc Hk) as (ks & Hks & Hprep).
  exists ks. split; [done|].
  pose proof (ref_send_outcome c testnet body σ) as E.
  destruct (@sendOffchainTransaction _ _ _ ref_ledger _ c testnet body σ) as [[σ' calls] r].
  unfold ref_outcome, build_of in E. rewrite Hv, Hsel, Hprep in E. cbn [negb] in E.
  cbv iota beta. destruct (submit _); by simplify_eq.
Qed.
End RefLedger.

Module Examples.
Import ToyChain ToyBuilder ToyEntries Withdrawal.Examples.

#[local] Instance validator : Validator := toy_validator.

(** The ledger hands out the spec's input set; the network accepts any
    raw transaction. *)
Definition sel (w : Withdrawal.t) : option (list WRD) := Some [entry1; sentinel].
Definition sub (tx : string) : option string := Some "txid1".

(** A mnemonic request that is broadcast. *)
Definition σ1 : ref_state :=
  (@sendOffchainTransaction _ _ _ (ref_ledger sel sub) _ BTC false
     (request "1.5" (Some "seed") None None) ref_init).1.1.

Lemma ref_runs_settled_witness :
  rtc (ledger_run sel sub) ref_init σ1 ∧ ref_inv σ1 ∧ settled σ1 ∧
  book σ1 !! "0" = Some (mk_entry (withdrawal_of (request "1.5" (Some "seed") None None))
                          [entry1; sentinel]
                          (WBroadcast "in(wif:seed/0);addrA:150000000;xpub:seed/0:49950000" "txid1")).
Proof.
  assert (Hr : rtc (ledger_run sel sub) ref_init σ1) by (apply rtc_once; constructor).
  destruct (ref_runs_settled sel sub σ1 Hr) as [Hi Hs].
  split_and!; [exact Hr|exact Hi|exact Hs|vm_compute; reflexivity].
Defined.

(** The end-to-end run of a mnemonic request that spends two entries. *)
Definition sel2 (w : Withdrawal.t) : option (list WRD) := Some [entry1; entry2; sentinel].

Lemma ref_send_end_to_end_witness :
  ∃ ks, Forall2 (λ d k, input_key BTC false (Some "seed") None d = Ok k) [entry1; entry2] ks ∧
    let hex := toHex {| tx_ins := zip_with signed_input [entry1; entry2] ks;
                        tx_outs := [{| script := "addrA"; value := 150000000 |};
                                    {| script := "xpub:seed/0"; value := 49950000 |}] |} in
    let '(σ', _, r) := @sendOffchainTransaction _ _ _ (ref_ledger sel2 sub) _ BTC false
                         (request "1.5" (Some "seed") None None) ref_init in
    σ' = mk_state 1 {["0" := mk_entry (withdrawal_of (request "1.5" (Some "seed") None None))
                              [entry1; entry2; sentinel] (WBroadcast hex "txid1")]} ∧
    r = Ok "txid1".
Proof.
  apply (ref_send_end_to_end sel2 sub BTC false (request "1.5" (Some "seed") None None) ref_init
           [entry1; entry2] sentinel [] "xpub:seed/0" 150000000 49950000).
  - reflexivity.
  - reflexivity.
  - discriminate.
  - repeat constructor.
  - apply (bool_decide_unpack _). vm_compute. reflexivity.
  - repeat constructor.
  - vm_compute. reflexivity.
  - vm_compute. reflexivity.
  - vm_compute. reflexivity.
  - vm_compute. reflexivity.
  - vm_compute. reflexivity.
  - repeat constructor; eexists; vm_compute; reflexivity.
Defined.
End Examples.
