(* ===== verification/Interleaving.v ===== *)
(** * Concurrent requests, interleaved at their [await]s

    [sendBitcoinOffchainTransaction] is an [async] function: between its
    [await]s other requests of the same process run, and the only state
    they share is the ledger.  A request is modelled here as a process
    whose [phase] is the point it has reached in lines 15-42 of
    src/src/offchain/bitcoin.ts (lines 9-36 of src/offchain/litecoin.ts):
    [advance] runs it up to its next [await] on the ledger, atomically, as
    the JavaScript event loop does.  A system is the ledger's state and a
    list of requests; [sys_step] advances any one of them.

    For every ledger, one request run alone is [sendOffchainTransaction]
    ([phases_equiv_send]), every interleaving is finite
    ([sys_terminates]) and every system can run to the end
    ([sys_can_finish]).  Against the reference ledger of [RefLedger], under
    every interleaving each pending withdrawal belongs to exactly one
    request, the one that stored it ([sys_reach_inv]), and once all
    requests have finished none is left pending ([quiescent_settled]);
    every run is finite, and a run that no request can extend ends with
    every request finished and the ledger settled
    ([sys_runs_end_settled]).  [schedule] runs a given interleaving, for the examples. *)
From Stdlib Require Import ZArith.
From stdpp Require Import relations.
Set Warnings "-clear-no-such-hyp".
From stdpp Require Import gmap strings pretty.
From S2P Require Import Prelude Amount Chain TxBuilder Offchain Withdrawal RefLedger.

(** A request, [send_args]: the arguments of [send*OffchainTransaction]. *)
Record send_args : Type := mk_request {
  rq_currency : Currency;
  rq_testnet : bool;
  rq_body : TransferBtcBasedOffchain.t;
}.

(** How far a request has got in lines 15-42. *)
Inductive phase : Type :=
  | PStart                                     (* before line 16 *)
  | PValid                                     (* validated, before line 23 *)
  | PStored (id : string) (data : list WRD)    (* stored, before line 29 *)
  | PBuilt (id : string) (txData : string)     (* built, before line 36 *)
  | PCancel (id : string) (e : js_error)       (* in a catch, before line 32 or 39 *)
  | PDone (r : result string).                 (* returned or thrown *)

Definition is_done (p : phase) : bool := match p with PDone _ => true | _ => false end.

(** The record a request has stored and not yet settled. *)
Definition active_id (p : phase) : option string :=
  match p with PStored id _ | PBuilt id _ | PCancel id _ => Some id | _ => None end.

(** The steps a request still has to take. *)
Definition rank (p : phase) : nat :=
  match p with
  | PStart => 5 | PValid => 4 | PStored _ _ => 3 | PBuilt _ _ => 2 | PCancel _ _ => 1 | PDone _ => 0
  end.

Section Process.
Context `{ECPairLib} `{Wallet} `{!TxHex} `{Ledger} `{Validator}.

(** One request, from one [await] to the next. *)
Definition advance (q : send_args) (σ : ledger_state) (p : phase) : option (ledger_state * phase) :=
  let c := rq_currency q in
  let body := rq_body q in
  let w := withdrawal_of body in
  match p with
  | PStart => Some (σ, if validateOrReject body then PValid else PDone (Throw ErrValidation))
  | PValid =>
      let '(σ', r) := offchainStoreWithdrawal σ w in
      Some (σ', match r with Ok (id, data) => PStored id data | Throw e => PDone (Throw e) end)
  | PStored id data =>
      Some (σ, match prepare_of c (rq_testnet q) id data (Withdrawal.amount w)
                       (Withdrawal.address w) (TransferBtcBasedOffchain.mnemonic body)
                       (TransferBtcBasedOffchain.keyPair body) (TransferBtcBasedOffchain.attr body) with
               | Ok tx => PBuilt id tx
               | Throw e => PCancel id e
               end)
  | PBuilt id tx =>
      let '(σ', r) := offchainBroadcast σ (BroadcastWithdrawal.mk tx id c) in
      Some (σ', match r with Ok txid => PDone (Ok txid) | Throw e => PCancel id e end)
  | PCancel id e =>
      let '(σ', rc) := offchainCancelWithdrawal σ id in Some (σ', PDone (Throw (compensated e rc)))
  | PDone _ => None
  end.

(** A request run alone, for at most [fuel] steps. *)
Fixpoint run_phases (q : send_args) (σ : ledger_state) (p : phase) (fuel : nat) : ledger_state * phase :=
  match fuel with
  | O => (σ, p)
  | S n => match advance q σ p with Some (σ', p') => run_phases q σ' p' n | None => (σ, p) end
  end.

Definition sys_state : Type := ledger_state * list (send_args * phase).

(** Any one unfinished request takes its next step. *)
Inductive sys_step : sys_state → sys_state → Prop :=
  | sys_advance σ ps i q p σ' p' :
      ps !! i = Some (q, p) → advance q σ p = Some (σ', p') →
      sys_step (σ, ps) (σ', <[i := (q, p')]> ps).

Definition sys_init (σ : ledger_state) (qs : list send_args) : sys_state :=
  (σ, (λ q, (q, PStart)) <$> qs).

Definition quiescent (s : sys_state) : Prop := Forall (λ qp, is_done qp.2 = true) s.2.

Definition sys_rank (s : sys_state) : nat := sum_list ((λ qp, rank qp.2) <$> s.2).
End Process.

Section ProcessFacts.
Context `{ECPairLib} `{Wallet} `{!TxHex} `{Ledger} `{Validator}.

Lemma advance_rank q σ p σ' p' : advance q σ p = Some (σ', p') → (rank p' < rank p)%nat.
Proof.
  destruct p; simpl; repeat case_match; intros; simplify_eq/=; lia.
Qed.

Lemma advance_progress q σ p : is_done p = false → ∃ σ' p', advance q σ p = Some (σ', p').
Proof. destruct p; simpl; try discriminate; intros _; repeat case_match; eauto. Qed.

Lemma sum_list_insert (l : list nat) i x y :
  l !! i = Some y → (sum_list (<[i:=x]> l) + y = sum_list l + x)%nat.
Proof.
  revert i. induction l as [|z l IH]; intros [|i] Hy; simplify_eq/=; [lia|].
  specialize (IH i Hy). lia.
Qed.

Lemma sys_step_rank s s' : sys_step s s' → (sys_rank s' < sys_rank s)%nat.
Proof.
  intros [σ ps i q p σ' p' Hi Ha]. unfold sys_rank. simpl.
  pose proof (advance_rank _ _ _ _ _ Ha).
  rewrite list_fmap_insert. simpl.
  pose proof (sum_list_insert ((λ qp, rank qp.2) <$> ps) i (rank p') (rank p)) as Hs.
  rewrite list_lookup_fmap, Hi in Hs. specialize (Hs eq_refl). lia.
Qed.

Lemma run_phases_done q σ r n : run_phases q σ (PDone r) n = (σ, PDone r).
Proof. by destruct n. Qed.

(** Adequacy of the phases: a request run alone through its phases, with
    fuel for its five steps, ends where [sendOffchainTransaction] ends: in
    the same ledger state, with the same result. *)
Lemma phases_equiv_send q σ fuel :
  (5 <= fuel)%nat →
  run_phases q σ PStart fuel
  = (let '(σ', _, r) := sendOffchainTransaction (rq_currency q) (rq_testnet q) (rq_body q) σ in
     (σ', PDone r)).
Proof.
  intros Hf. replace fuel with (S (S (S (S (S (fuel - 5)))))) by lia.
  destruct q as [c testnet body]. unfold sendOffchainTransaction.
  unfold compensate, mbind, M_bind, store, catchM, liftM, cancel, broadcast, throwM.
  simpl. destruct (validateOrReject body); simpl; [|by rewrite ?run_phases_done].
  destruct (offchainStoreWithdrawal σ (withdrawal_of body)) as [σ1 [[id data]|e]]; simpl;
    [|by rewrite ?run_phases_done].
  destruct (prepare_of _ _ _ _ _ _ _ _ _) as [tx|e]; simpl.
  - destruct (offchainBroadcast σ1 _) as [σ2 [txid|e]]; simpl; [by rewrite ?run_phases_done|].
    destruct (offchainCancelWithdrawal σ2 id) as [σ3 rc]. simpl.
    rewrite ?run_phases_done. by destruct rc.
  - destruct (offchainCancelWithdrawal σ1 id) as [σ2 rc]. simpl.
    rewrite ?run_phases_done. by destruct rc.
Qed.

(** Whatever the ledger answers and however the requests are
    interleaved, every run of the system is finite: each step brings one
    request closer to its end. *)
Lemma sys_terminates s : sn sys_step s.
Proof.
  apply (measure_sn sys_step (λ _, True) sys_rank); [|done].
  intros x y _ Hs. split; [done|]. by apply sys_step_rank.
Qed.

(** From every state of the system, some interleaving runs every request
    to its end. *)
Lemma sys_can_finish s : ∃ s', rtc sys_step s s' ∧ quiescent s'.
Proof.
  induction (measure_sn sys_step (λ _, True) sys_rank
               (λ x y _ Hs, conj I (sys_step_rank x y Hs)) s I) as [[σ ps] _ IH].
  destruct (decide (quiescent (σ, ps))) as [Hq|Hq]; [exists (σ, ps); split; [apply rtc_refl|done]|].
  apply not_Forall_Exists, Exists_exists in Hq as ([q p] & Hin & Hp); [|apply _].
  apply list_elem_of_lookup in Hin as [i Hi]. simpl in Hp.
  destruct (advance_progress q σ p) as (σ' & p' & Ha); [by destruct (is_done p)|].
  destruct (IH (σ', <[i := (q, p')]> ps)) as (s' & Hr & Hq'); [by econstructor|].
  exists s'. split; [|done]. eapply rtc_l; [by econstructor|done].
Qed.
(** A state in which no request can move has every request finished. *)
Lemma nf_quiescent s : nf sys_step s → quiescent s.
Proof.
  destruct s as [σ ps]. intros Hnf. apply Forall_forall. intros [q p] Hin. simpl.
  destruct (is_done p) eqn:Hd; [done|exfalso].
  apply list_elem_of_lookup in Hin as [i Hi].
  destruct (advance_progress q σ p Hd) as (σ' & p' & Ha).
  apply Hnf. eexists. by econstructor.
Qed.
End ProcessFacts.

(** ** Concurrent requests against the reference ledger *)
Section RefInterleaving.
Context (select : Withdrawal.t → option (list WRD)) (submit : string → option string).
#[local] Instance rl : Ledger := ref_ledger select submit.
Context `{ECPairLib} `{Wallet} `{!TxHex} `{Validator}.

(** Every pending record belongs to exactly one request that is between
    its store and its last ledger call, and records the withdrawal of that
    request; identifiers from [next_id] on are unused. *)
Record sys_inv (s : sys_state) : Prop := {
  si_fresh : ref_inv s.1;
  si_owned : ∀ i q p id, s.2 !! i = Some (q, p) → active_id p = Some id →
    ∃ e, book s.1 !! id = Some e ∧ e_status e = WStored ∧ e_withdrawal e = withdrawal_of (rq_body q);
  si_owner : ∀ id e, book s.1 !! id = Some e → e_status e = WStored →
    ∃ i q p, s.2 !! i = Some (q, p) ∧ active_id p = Some id;
  si_excl : ∀ i j qi pi qj pj id, s.2 !! i = Some (qi, pi) → s.2 !! j = Some (qj, pj) →
    active_id pi = Some id → active_id pj = Some id → i = j;
}.

Lemma lookup_insert_inv (ps : list (send_args * phase)) i x j y :
  <[i:=x]> ps !! j = Some y → (i = j ∧ x = y) ∨ (i ≠ j ∧ ps !! j = Some y).
Proof. rewrite list_lookup_insert_Some. naive_solver. Qed.

Lemma lookup_insert_same (ps : list (send_args * phase)) i x y :
  ps !! i = Some y → <[i:=x]> ps !! i = Some x.
Proof. intros Hi. apply list_lookup_insert_eq. by eapply lookup_lt_Some. Qed.

(** A step that keeps the ledger and the request's record. *)
Lemma inv_same_active σ ps i q p p' :
  sys_inv (σ, ps) → ps !! i = Some (q, p) → active_id p' = active_id p →
  sys_inv (σ, <[i := (q, p')]> ps).
Proof.
  intros [Hf Ho Hw Hx] Hi Ha. cbn [fst snd] in Hf, Ho, Hw, Hx. split; simpl; [done|..].
  - intros j qj pj id Hj Hid.
    apply lookup_insert_inv in Hj as [[<- [= <- <-]]|[_ Hj]]; [rewrite Ha in Hid|]; eauto.
  - intros id e Hb Hs. destruct (Hw id e Hb Hs) as (j & qj & pj & Hj & Hid).
    destruct (decide (i = j)) as [->|Hne].
    + exists j, q, p'. rewrite Hi in Hj. simplify_eq. split; [by eapply lookup_insert_same|congruence].
    + exists j, qj, pj. by rewrite list_lookup_insert_ne.
  - intros j k qj pj qk pk id Hj Hk Hidj Hidk.
    apply lookup_insert_inv in Hj as [[<- [= <- <-]]|[_ Hj]];
      apply lookup_insert_inv in Hk as [[<- [= <- <-]]|[_ Hk]];
      try rewrite Ha in Hidj; try rewrite Ha in Hidk; eauto.
Qed.

(** A step that settles the request's record and ends its activity. *)
Lemma inv_finish σ ps i q p p' id e st :
  sys_inv (σ, ps) → ps !! i = Some (q, p) → active_id p = Some id → book σ !! id = Some e →
  active_id p' = None → st ≠ WStored →
  sys_inv (set_status σ id e st, <[i := (q, p')]> ps).
Proof.
  intros [Hf Ho Hw Hx] Hi Hid He Hp' Hst. cbn [fst snd] in Hf, Ho, Hw, Hx. unfold set_status. split; cbn [fst snd book next_id].
  - unfold ref_inv. cbn [book next_id]. intros n Hn. rewrite lookup_insert_ne; [by apply Hf|].
    intros ->. by rewrite (Hf n Hn) in He.
  - intros j qj pj id' Hj Hid'.
    apply lookup_insert_inv in Hj as [[<- [= <- <-]]|[Hne Hj]]; [congruence|].
    assert (id ≠ id') by (intros <-; by apply Hne, (Hx i j q p qj pj id)).
    rewrite lookup_insert_ne by done. eauto.
  - intros id' e' Hb Hs. destruct (decide (id = id')) as [<-|Hne].
    + rewrite lookup_insert_eq in Hb. by injection Hb as <-.
    + rewrite lookup_insert_ne in Hb by done.
      destruct (Hw id' e' Hb Hs) as (j & qj & pj & Hj & Hidj).
      assert (i ≠ j) by (intros <-; congruence).
      exists j, qj, pj. by rewrite list_lookup_insert_ne.
  - intros j k qj pj qk pk id' Hj Hk Hidj Hidk.
    apply lookup_insert_inv in Hj as [[<- [= <- <-]]|[_ Hj]]; [congruence|].
    apply lookup_insert_inv in Hk as [[<- [= <- <-]]|[_ Hk]]; [congruence|eauto].
Qed.

(** The store: a fresh record, owned by the request that stored it. *)
Lemma inv_store σ ps i q data :
  sys_inv (σ, ps) → ps !! i = Some (q, PValid) →
  sys_inv (mk_state (N.succ (next_id σ))
             (<[pretty (next_id σ) := mk_entry (withdrawal_of (rq_body q)) data WStored]> (book σ)),
           <[i := (q, PStored (pretty (next_id σ)) data)]> ps).
Proof.
  intros [Hf Ho Hw Hx] Hi. cbn [fst snd] in Hf, Ho, Hw, Hx. pose proof (Hf (next_id σ) ltac:(lia)) as Hfresh.
  (* a request that is active holds a record, so not the fresh one *)
  assert (Hold : ∀ j qj pj id, ps !! j = Some (qj, pj) → active_id pj = Some id →
            id ≠ pretty (next_id σ)).
  { intros j qj pj id Hj Hid ->. destruct (Ho j qj pj _ Hj Hid) as (e & He & _). congruence. }
  split; cbn [fst snd book next_id].
  - unfold ref_inv. cbn [book next_id]. intros n Hn.
    rewrite lookup_insert_ne; [apply Hf; lia|]. intros E%(inj pretty). lia.
  - intros j qj pj id Hj Hid.
    apply lookup_insert_inv in Hj as [[<- [= <- <-]]|[_ Hj]].
    + injection Hid as <-. rewrite lookup_insert_eq. eauto.
    + rewrite lookup_insert_ne by (symmetry; eauto). eauto.
  - intros id e Hb Hs. destruct (decide (pretty (next_id σ) = id)) as [<-|Hne].
    + exists i, q, (PStored (pretty (next_id σ)) data). split; [by eapply lookup_insert_same|done].
    + rewrite lookup_insert_ne in Hb by done.
      destruct (Hw id e Hb Hs) as (j & qj & pj & Hj & Hidj).
      assert (i ≠ j) by (intros <-; rewrite Hi in Hj; simplify_eq; discriminate).
      exists j, qj, pj. by rewrite list_lookup_insert_ne.
  - intros j k qj pj qk pk id Hj Hk Hidj Hidk.
    apply lookup_insert_inv in Hj as [[<- [= <- <-]]|[_ Hj]];
      apply lookup_insert_inv in Hk as [[<- [= <- <-]]|[_ Hk]]; try done;
      try (injection Hidj as <-; by destruct (Hold _ _ _ _ Hk Hidk));
      try (injection Hidk as <-; by destruct (Hold _ _ _ _ Hj Hidj)).
    eauto.
Qed.

Lemma sys_step_inv s s' : sys_inv s → sys_step s s' → sys_inv s'.
Proof.
  intros Hinv Hstep. revert Hinv. destruct Hstep as [σ ps i q p σ' p' Hi Ha]. intros Hinv.
  destruct p as [| |id data|id tx|id e|r]; simpl in Ha.
  - injection Ha as <- <-. apply (inv_same_active _ _ _ _ PStart); [done|done|].
    by destruct (validateOrReject _).
  - cbn [offchainStoreWithdrawal rl ref_ledger] in Ha. unfold ref_store in Ha.
    destruct (select _) as [data|]; injection Ha as <- <-;
      [by apply inv_store|by apply (inv_same_active _ _ _ _ PValid)].
  - injection Ha as <- <-. apply (inv_same_active _ _ _ _ (PStored id data)); [done|done|].
    by destruct (prepare_of _ _ _ _ _ _ _ _ _).
  - destruct (si_owned _ Hinv i q (PBuilt id tx) id Hi eq_refl) as (e & He & Hs & _).
    cbn [fst] in He.
    cbn [offchainBroadcast rl ref_ledger] in Ha. unfold ref_broadcast in Ha. simpl in Ha.
    rewrite He, Hs in Ha. destruct (submit tx) as [txid|]; injection Ha as <- <-.
    + by apply (inv_finish _ _ _ _ (PBuilt id tx) _ id e).
    + by apply (inv_same_active _ _ _ _ (PBuilt id tx)).
  - destruct (si_owned _ Hinv i q (PCancel id e) id Hi eq_refl) as (e' & He & Hs & _).
    cbn [fst] in He.
    cbn [offchainCancelWithdrawal rl ref_ledger] in Ha. unfold ref_cancel in Ha.
    rewrite He, Hs in Ha. injection Ha as <- <-.
    by apply (inv_finish _ _ _ _ (PCancel id e) _ id e').
  - discriminate.
Qed.

Lemma sys_inv_init qs : sys_inv (sys_init ref_init qs).
Proof.
  split; cbn [sys_init fst snd].
  - apply ref_init_inv.
  - intros i q p id (qp & Heq & _)%list_lookup_fmap_Some. simplify_eq/=. intros; simplify_eq/=.
  - intros id e Hb. unfold ref_init in Hb. simpl in Hb. by rewrite lookup_empty in Hb.
  - intros i j qi pi qj pj id (qp & Heq & _)%list_lookup_fmap_Some. simplify_eq/=. intros; simplify_eq/=.
Qed.

Lemma reach_inv qs s : rtc sys_step (sys_init ref_init qs) s → sys_inv s.
Proof.
  revert s. apply (rtc_ind_r sys_inv); [apply sys_inv_init|].
  intros s1 s2 _ Hs IH. by eapply sys_step_inv.
Qed.

(** C18: invariant.  However concurrent requests interleave at their
    [await]s, against the reference ledger every pending withdrawal
    belongs to exactly one request, that request stored it and is still
    between its store and its last ledger call, and identifiers stay
    fresh: no request ever cancels or broadcasts another's withdrawal. *)
Theorem sys_reach_inv qs s : rtc sys_step (sys_init ref_init qs) s → sys_inv s.
Proof. apply reach_inv. Qed.

Lemma reach_settled qs s :
  rtc sys_step (sys_init ref_init qs) s → quiescent s → settled s.1.
Proof.
  intros Hr Hq id e Hb Hst.
  destruct (si_owner _ (reach_inv qs s Hr) id e Hb Hst) as (i & q & p & Hi & Hid).
  apply (Forall_lookup_1 _ _ _ _ Hq) in Hi. destruct p; simpl in Hi, Hid; congruence.
Qed.


(** C24: termination and liveness.  However concurrent requests are
    interleaved against the reference ledger, every run from a reachable
    state is finite; every run that no request can extend any more ends
    with every request finished and no withdrawal pending; and such a run
    exists from every reachable state.  So whatever the scheduling, the
    ledger ends settled, which needs the code's compensations. *)
Theorem sys_runs_end_settled qs s :
  rtc sys_step (sys_init ref_init qs) s →
  sn sys_step s ∧
  (∀ s', rtc sys_step s s' → nf sys_step s' → quiescent s' ∧ settled s'.1) ∧
  ∃ s', rtc sys_step s s' ∧ quiescent s' ∧ settled s'.1.
Proof.
  intros Hr. split_and!; [apply sys_terminates| |].
  - intros s' Hr' Hnf. pose proof (nf_quiescent s' Hnf) as Hq.
    split; [done|]. apply (reach_settled qs); [by transitivity s|done].
  - destruct (sys_can_finish s) as (s' & Hr' & Hq). exists s'.
    split_and!; [done|done|]. apply (reach_settled qs); [by transitivity s|done].
Qed.
End RefInterleaving.

(** ** An executable scheduler, for concrete interleavings *)
Section Schedule.
Context `{ECPairLib} `{Wallet} `{!TxHex} `{Ledger} `{Validator}.

(** Advance the requests in the order [sched] names them; a finished or
    missing request is skipped. *)
Fixpoint schedule (sched : list nat) (s : sys_state) : sys_state :=
  match sched with
  | [] => s
  | i :: rest =>
      match s.2 !! i with
      | Some (q, p) =>
          match advance q s.1 p with
          | Some (σ', p') => schedule rest (σ', <[i := (q, p')]> s.2)
          | None => schedule rest s
          end
      | None => schedule rest s
      end
  end.

Lemma schedule_rtc sched s : rtc sys_step s (schedule sched s).
Proof.
  revert s. induction sched as [|i rest IH]; intros [σ ps]; simpl; [apply rtc_refl|].
  destruct (ps !! i) as [[q p]|] eqn:Hi; [|apply IH].
  destruct (advance q σ p) as [[σ' p']|] eqn:Ha; [|apply IH].
  eapply rtc_l; [by econstructor|apply IH].
Qed.
End Schedule.

Module RefExamples.
Import ToyChain ToyBuilder ToyEntries RefLedger.Examples.
#[local] Instance validator : Validator := Withdrawal.Examples.toy_validator.
#[local] Instance ledger : Ledger := rl sel sub.

(** A request with a mnemonic, broadcast; one without credentials,
    whose build throws and whose record is cancelled. *)
Definition qa : send_args := mk_request BTC false (Withdrawal.Examples.request "1.5" (Some "seed") None None).
Definition qb : send_args := mk_request BTC false (Withdrawal.Examples.request "1.5" None None None).

(** Both validated and stored, neither finished. *)
Definition s_mid : sys_state := schedule [0; 1; 0; 1]%nat (sys_init ref_init [qa; qb]).

Lemma sys_reach_inv_witness :
  rtc sys_step (sys_init ref_init [qa; qb]) s_mid ∧ sys_inv sel sub s_mid ∧
  s_mid.2 = [(qa, PStored "0" [entry1; sentinel]); (qb, PStored "1" [entry1; sentinel])].
Proof.
  assert (Hr : rtc sys_step (sys_init ref_init [qa; qb]) s_mid) by apply schedule_rtc.
  split_and!; [exact Hr|exact (sys_reach_inv sel sub [qa; qb] s_mid Hr)|vm_compute; reflexivity].
Defined.

Lemma sys_runs_end_settled_witness :
  rtc sys_step (sys_init ref_init [qa; qb]) s_mid ∧
  (sn sys_step s_mid ∧
   (∀ s', rtc sys_step s_mid s' → nf sys_step s' → quiescent s' ∧ settled s'.1) ∧
   ∃ s', rtc sys_step s_mid s' ∧ quiescent s' ∧ settled s'.1).
Proof.
  assert (Hr : rtc sys_step (sys_init ref_init [qa; qb]) s_mid) by apply schedule_rtc.
  split; [exact Hr|exact (sys_runs_end_settled sel sub [qa; qb] s_mid Hr)].
Defined.
End RefExamples.
